(** * The VS Code LLM bridge and its chat-completion adapter

  A shallow embedding of
  - the bridge extension ([createServer], [startServer], [stopServer]:
    an Express application in front of [vscode.lm]), and
  - the provider adapter ([VSLLMProvider.getModelInstance], the [fetch]
    override handed to [createOpenAI], in its streaming-capable version),
  followed by the properties of the protocol bridge.

  JavaScript values are modelled after [JSON.parse]: the request bodies and
  the bridge replies both layers inspect are parsed JSON.  Numbers are IEEE
  doubles ([PrimFloat.float]).  Exceptions are explicit ([Exc]); host calls
  made by the bridge are recorded in a trace. *)

From Stdlib Require Import ZArith List String Bool Lia.
From Stdlib Require Import Floats.PrimFloat DecimalString.
From Stdlib Require Import Ascii.

#[local] Set Warnings "-register-all".
Import ListNotations.

Local Open Scope string_scope.

(* ================================================================== *)
(** * JavaScript values and the fragment of the language the code uses *)
(* ================================================================== *)

Module Js.

(** A value as [JSON.parse] builds it, plus [undefined] for what a
    property read yields when the property is absent.  [JObj] lists the own
    properties of a parsed object (keys distinct, [own] reads the first
    binding). *)
Inductive value : Type :=
| JUndefined
| JNull
| JBool (b : bool)
| JNum (x : float)
| JStr (s : string)
| JArr (items : list value)
| JObj (fields : list (string * value)).

(** A thrown object, seen through the only thing the code reads from it:
    [error.message] ([None] when the thrown object carries no message). *)
Record exn : Type := Thrown { message : option string }.

Definition Error (msg : string) : exn := Thrown (Some msg).

(** A [TypeError] raised by the engine; the texts are V8's. *)
Definition TypeError (msg : string) : exn := Thrown (Some msg).

(** Computations that return or throw. *)
Inductive Exc (A : Type) : Type :=
| Ok (a : A)
| Throw (e : exn).
Arguments Ok {A} a.
Arguments Throw {A} e.

Definition bind {A B : Type} (m : Exc A) (f : A -> Exc B) : Exc B :=
  match m with
  | Ok a => f a
  | Throw e => Throw e
  end.

Declare Scope exc_scope.
Delimit Scope exc_scope with exc.
Notation "x <- m ;; k" := (bind m (fun x => k))
  (at level 61, m at next level, right associativity) : exc_scope.

Local Open Scope exc_scope.

(** [Array.prototype.map] with a callback that may throw: elements are
    visited in order and the first exception ends the traversal. *)
Fixpoint mapM {A B : Type} (f : A -> Exc B) (l : list A) : Exc (list B) :=
  match l with
  | [] => Ok []
  | a :: rest => b <- f a ;; bs <- mapM f rest ;; Ok (b :: bs)
  end.

Fixpoint own (fields : list (string * value)) (k : string) : option value :=
  match fields with
  | [] => None
  | (k', v) :: rest => if String.eqb k' k then Some v else own rest k
  end.

Definition has_own (fields : list (string * value)) (k : string) : bool :=
  match own fields k with Some _ => true | None => false end.

Definition nullish (v : value) : bool :=
  match v with
  | JUndefined | JNull => true
  | _ => false
  end.

(** [o.k], for the property names the code reads ([messages], [model],
    [content], [type], [text], [success], ...), none of which lives on a
    built-in prototype: a missing property reads as [undefined], a read
    from [null] or [undefined] throws. *)
Definition get (o : value) (k : string) : Exc value :=
  match o with
  | JUndefined =>
      Throw (TypeError ("Cannot read properties of undefined (reading '" ++ k ++ "')"))
  | JNull =>
      Throw (TypeError ("Cannot read properties of null (reading '" ++ k ++ "')"))
  | JObj fields =>
      Ok (match own fields k with Some v => v | None => JUndefined end)
  | _ => Ok JUndefined
  end.

(** [o?.k] *)
Definition get_opt (o : value) (k : string) : Exc value :=
  if nullish o then Ok JUndefined else get o k.

(** ToBoolean *)
Definition truthy (v : value) : bool :=
  match v with
  | JUndefined | JNull => false
  | JBool b => b
  | JNum x => negb (is_zero x || is_nan x)
  | JStr s => negb (String.eqb s "")
  | JArr _ | JObj _ => true
  end.

(** [a || b] *)
Definition or_else (a b : value) : value := if truthy a then a else b.

(** [Array.isArray] *)
Definition isArray (v : value) : bool :=
  match v with
  | JArr _ => true
  | _ => false
  end.

(** [typeof v === 'string'] *)
Definition isString (v : value) : bool :=
  match v with
  | JStr _ => true
  | _ => false
  end.

(** [hay.includes(needle)] *)
Fixpoint includes (needle hay : string) : bool :=
  if prefix needle hay then true
  else match hay with
       | EmptyString => false
       | String _ rest => includes needle rest
       end.

(** [v === s] for a string literal [s] *)
Definition strict_eq_str (v : value) (s : string) : bool :=
  match v with
  | JStr t => String.eqb t s
  | _ => false
  end.

(** [v === true] *)
Definition strict_eq_true (v : value) : bool :=
  match v with
  | JBool true => true
  | _ => false
  end.

(** What [JSON.stringify] keeps of an object literal: a property whose
    value is [undefined] is left out. *)
Definition json_object (fields : list (string * value)) : value :=
  JObj (filter (fun kv => match snd kv with JUndefined => false | _ => true end) fields).

(** Decimal text of an integer, as [String(n)] prints an integral Number
    below 1e21. *)
Definition show_Z (z : Z) : string := NilZero.string_of_int (Z.to_int z).

(** The values whose conversion to a primitive goes through: every
    object met on the way (the value itself, or an element of an array,
    at any depth) is without an own [toString] property. *)
Fixpoint convertible (v : value) : bool :=
  match v with
  | JArr items => forallb convertible items
  | JObj fields => negb (has_own fields "toString")
  | _ => true
  end.

Section Runtime.
(** The engine's conversions between Strings and Numbers
    (StringToNumber and Number::toString of ECMA-262). *)
Variable StringToNumber : string -> float.
Variable NumberToString : float -> string.

(** ToString.  An array joins its elements with a comma ([null] and
    [undefined] print as nothing).  A parsed object inherits
    [Object.prototype.toString] unless it has an own [toString]
    property; that one is a JSON value, hence not callable, and the
    inherited [valueOf] returns the object itself, so the conversion to
    a primitive throws. *)
Fixpoint ToString (v : value) : Exc string :=
  match v with
  | JUndefined => Ok "undefined"
  | JNull => Ok "null"
  | JBool b => Ok (if b then "true" else "false")
  | JNum x => Ok (NumberToString x)
  | JStr s => Ok s
  | JArr items =>
      (fix join (l : list value) : Exc string :=
         match l with
         | [] => Ok ""
         | x :: rest =>
             s <- (if nullish x then Ok "" else ToString x) ;;
             match rest with
             | [] => Ok s
             | _ :: _ => r <- join rest ;; Ok (s ++ "," ++ r)
             end
         end) items
  | JObj fields =>
      if has_own fields "toString"
      then Throw (TypeError "Cannot convert object to primitive value")
      else Ok "[object Object]"
  end.

(** ToNumber, that is [Number(v)] *)
Definition ToNumber (v : value) : Exc float :=
  match v with
  | JUndefined => Ok nan
  | JNull => Ok 0%float
  | JBool b => Ok (if b then 1%float else 0%float)
  | JNum x => Ok x
  | JStr s => Ok (StringToNumber s)
  | JArr _ | JObj _ => s <- ToString v ;; Ok (StringToNumber s)
  end.

(** [isNaN(x)] on a Number *)
Definition isNaN (x : float) : bool := is_nan x.

End Runtime.

End Js.

(* ================================================================== *)
(** * The bridge extension: [POST /api/chat] and the server lifecycle  *)
(* ================================================================== *)

Module Bridge.
Import Js.
Local Open Scope exc_scope.
Local Open Scope Z_scope.

(** ** The host ([vscode.lm]) *)

(** A chat model of the host, through the fields the reply copies. *)
Record Model : Type := mkModel
  { model_id : string; model_vendor : string; model_family : string; model_name : string }.

(** The selector object [{ id, vendor, family }] built from the request. *)
Record Selector : Type := mkSelector
  { sel_id : value; sel_vendor : value; sel_family : value }.

Inductive StreamPart : Type :=
| LanguageModelTextPart (text : string)
| OtherPart.

(** What iterating [response.stream] delivers: parts, then either the end
    of the stream or an exception. *)
Record ChatResponse : Type := mkChatResponse
  { stream : list StreamPart; stream_failure : option exn }.

Record Host : Type := mkHost
  { selectChatModels : option Selector -> Exc (list Model);
    sendRequest : Model -> list value -> value -> Exc ChatResponse }.

Inductive HostCall : Type :=
| CallSelectChatModels (selector : option Selector)
| CallSendRequest (model : Model) (chatMessages : list value) (options : value).

(** ** Handler computations: a trace of host calls and a result or an
    exception *)

Definition Handler (A : Type) : Type := (list HostCall * Exc A)%type.

Definition hret {A : Type} (a : A) : Handler A := ([], Ok a).

Definition hbind {A B : Type} (m : Handler A) (f : A -> Handler B) : Handler B :=
  match m with
  | (t, Ok a) => let (t', r) := f a in ((t ++ t')%list, r)
  | (t, Throw e) => (t, Throw e)
  end.

Definition lift {A : Type} (m : Exc A) : Handler A := ([], m).

Notation "x <~ m ;; k" := (hbind m (fun x => k))
  (at level 61, m at next level, right associativity).

Definition callSelectChatModels (host : Host) (selector : option Selector)
  : Handler (list Model) :=
  ([CallSelectChatModels selector], selectChatModels host selector).

Definition callSendRequest (host : Host) (model : Model) (chatMessages : list value)
  (options : value) : Handler ChatResponse :=
  ([CallSendRequest model chatMessages options], sendRequest host model chatMessages options).

(** ** [app.post('/api/chat', ...)] *)

Record Reply : Type := mkReply { status : Z; json : value }.

(** [const { messages, model: requestedModel, options = {} } = req.body] *)
Definition destructure (body : value) : Exc (value * value * value) :=
  match body with
  | JUndefined =>
      Throw (TypeError "Cannot destructure property 'messages' of 'req.body' as it is undefined.")
  | JNull =>
      Throw (TypeError "Cannot destructure property 'messages' of 'req.body' as it is null.")
  | _ =>
      messages <- get body "messages" ;;
      requestedModel <- get body "model" ;;
      options <- get body "options" ;;
      Ok (messages, requestedModel,
          match options with JUndefined => JObj [] | _ => options end)
  end.

(** [for await (const part of response.stream)]: the text parts are
    appended to [fullResponse], any other part is skipped. *)
Fixpoint collect (parts : list StreamPart) (fullResponse : string) : string :=
  match parts with
  | [] => fullResponse
  | LanguageModelTextPart text :: rest => collect rest (fullResponse ++ text)
  | OtherPart :: rest => collect rest fullResponse
  end.

Definition drain (response : ChatResponse) : Exc string :=
  match stream_failure response with
  | Some e => Throw e
  | None => Ok (collect (stream response) "")
  end.

Definition elements (v : value) : list value :=
  match v with
  | JArr items => items
  | _ => []
  end.

Definition modelInfo (model : Model) : value :=
  json_object [("id", JStr (model_id model)); ("vendor", JStr (model_vendor model));
               ("family", JStr (model_family model)); ("name", JStr (model_name model))].

Definition reply400 : Reply :=
  mkReply 400 (json_object [("success", JBool false);
                            ("error", JStr "Messages array is required")]).

Definition reply404 : Reply :=
  mkReply 404 (json_object [("success", JBool false);
                            ("error", JStr "No language models available")]).

Definition reply200 (fullResponse : string) (model : Model) : Reply :=
  mkReply 200 (json_object [("success", JBool true); ("response", JStr fullResponse);
                            ("model", modelInfo model)]).

(** The [catch] branch: [error: error.message]. *)
Definition reply500 (error : exn) : Reply :=
  mkReply 500 (json_object [("success", JBool false);
                            ("error", match message error with
                                      | Some m => JStr m
                                      | None => JUndefined
                                      end)]).

(** The argument of [vscode.lm.selectChatModels]: the selector object
    when [requestedModel] is truthy, no argument otherwise. *)
Definition selectorOf (requestedModel : value) : Exc (option Selector) :=
  if truthy requestedModel
  then
    i <- get requestedModel "id" ;;
    v <- get requestedModel "vendor" ;;
    f <- get requestedModel "family" ;;
    Ok (Some (mkSelector i v f))
  else Ok None.

(** The body of the [try] block. *)
Definition chatTry (host : Host) (body : value) : Handler Reply :=
  d <~ lift (destructure body) ;;
  let '(messages, requestedModel, options) := d in
  if negb (truthy messages) || negb (isArray messages) then hret reply400
  else
    selector <~ lift (selectorOf requestedModel) ;;
    models <~ callSelectChatModels host selector ;;
    match models with
    | [] => hret reply404
    | model :: _ =>
        chatMessages <~ lift (mapM (fun msg => get msg "content") (elements messages)) ;;
        response <~ callSendRequest host model chatMessages options ;;
        fullResponse <~ lift (drain response) ;;
        hret (reply200 fullResponse model)
    end.

(** The handler: the reply sent and the host calls made on the way. *)
Definition chatHandler (host : Host) (body : value) : Reply * list HostCall :=
  match chatTry host body with
  | (trace, Ok reply) => (reply, trace)
  | (trace, Throw error) => (reply500 error, trace)
  end.

(** The model the handler invoked, if it invoked one. *)
Definition invoked (trace : list HostCall) : list Model :=
  flat_map (fun c => match c with
                     | CallSendRequest m _ _ => [m]
                     | CallSelectChatModels _ => []
                     end) trace.

(** The reply seen by a client: [success === true], whether a field is
    present, and the [error] string. *)
Definition replySuccess (reply : Reply) : bool :=
  match json reply with
  | JObj fields =>
      match own fields "success" with
      | Some (JBool true) => true
      | _ => false
      end
  | _ => false
  end.

Definition replyHas (reply : Reply) (k : string) : bool :=
  match json reply with
  | JObj fields => has_own fields k
  | _ => false
  end.

Definition replyError (reply : Reply) : option string :=
  match json reply with
  | JObj fields =>
      match own fields "error" with
      | Some (JStr e) => Some e
      | _ => None
      end
  | _ => None
  end.

(** ** [startServer] and [stopServer] *)

(** What a call of [app.listen(port, 'localhost', cb)] leads to: the
    ['listening'] callback, an ['error'] event, or an exception thrown by
    the call itself. *)
Inductive ListenOutcome : Type :=
| Listening
| ErrorEvent (code : string) (msg : string)
| ListenThrows (msg : string).

Definition Network : Type := Z -> ListenOutcome.

(** The module-level variables [server] and [serverPort] (the server
    object is identified by the port it was asked to listen on), and
    [treeDataProvider.serverRunning]. *)
Record State : Type := mkState
  { server : option Z; serverPort : Z; serverRunning : bool }.

Inductive Effect : Type :=
| Listen (port : Z)
| Close
| ConsoleLog (text : string)
| ConsoleError (text : string)
| ShowInformationMessage (text : string)
| ShowWarningMessage (text : string)
| ShowErrorMessage (text : string)
| UnhandledErrorEvent (code : string)
| UncaughtException (msg : string).

(** The ['listening'] callback passed to [app.listen]. *)
Definition onListening (st : State) : State * list Effect :=
  let message := "LLM Bridge Server started on http://localhost:" ++ show_Z (serverPort st) in
  (mkState (server st) (serverPort st) true,
   [ConsoleLog message; ShowInformationMessage message]).

(** The handler registered with [server.on('error', ...)] on the first
    server object.  The server object created by the retry gets no
    ['error'] handler of its own. *)
Definition onError (net : Network) (st : State) (code msg : string)
  : State * list Effect :=
  if String.eqb code "EADDRINUSE" then
    let port := serverPort st + 1 in
    let busy := ConsoleLog ("Port " ++ show_Z (port - 1) ++ " is busy, trying " ++ show_Z port) in
    match net port with
    | Listening =>
        let (st', effects) := onListening (mkState (Some port) port (serverRunning st)) in
        (st', busy :: Listen port :: effects)
    | ErrorEvent code' _ =>
        (mkState (Some port) port (serverRunning st),
         [busy; Listen port; UnhandledErrorEvent code'])
    | ListenThrows msg' =>
        (mkState (server st) port (serverRunning st),
         [busy; Listen port; UncaughtException msg'])
    end
  else
    (mkState None (serverPort st) (serverRunning st),
     [ConsoleError "Server error:"; ShowErrorMessage ("Failed to start server: " ++ msg)]).

(** [startServer], run until the listen attempts it starts have settled. *)
Definition startServer (net : Network) (st : State) : State * list Effect :=
  match server st with
  | Some _ => (st, [ShowWarningMessage "Server is already running!"])
  | None =>
      let port := serverPort st in
      match net port with
      | Listening =>
          let (st', effects) := onListening (mkState (Some port) port (serverRunning st)) in
          (st', Listen port :: effects)
      | ErrorEvent code msg =>
          let (st', effects) := onError net (mkState (Some port) port (serverRunning st)) code msg in
          (st', Listen port :: effects)
      | ListenThrows msg =>
          (mkState None port (serverRunning st),
           [Listen port; ConsoleError "Error starting server:";
            ShowErrorMessage ("Failed to start server: " ++ msg)])
      end
  end.

(** The synchronous part of [stopServer]: [server.close(cb)] is requested,
    [cb] runs later. *)
Definition stopServer (st : State) : State * list Effect :=
  match server st with
  | Some _ => (st, [Close])
  | None => (st, [ShowWarningMessage "Server is not running!"])
  end.

(** The callback passed to [server.close]. *)
Definition onClosed (st : State) : State * list Effect :=
  let message := "LLM Bridge Server stopped" in
  (mkState None (serverPort st) false,
   [ConsoleLog message; ShowInformationMessage message]).

(** [stopServer] followed by the close callbacks it requested. *)
Definition stopServerSettled (st : State) : State * list Effect :=
  let (st1, effects1) := stopServer st in
  if existsb (fun e => match e with Close => true | _ => false end) effects1
  then let (st2, effects2) := onClosed st1 in (st2, (effects1 ++ effects2)%list)
  else (st1, effects1).

(** The ports [app.listen] was called with. *)
Definition listenAttempts (effects : list Effect) : list Z :=
  flat_map (fun e => match e with Listen p => [p] | _ => [] end) effects.

(** An effect that is an exception escaping to the runtime. *)
Definition raises (e : Effect) : bool :=
  match e with
  | UnhandledErrorEvent _ | UncaughtException _ => true
  | _ => false
  end.

End Bridge.

(* ================================================================== *)
(** * The provider adapter: the [fetch] override of [getModelInstance] *)
(* ================================================================== *)

Module Adapter.
Import Js.
Local Open Scope exc_scope.
Local Open Scope Z_scope.

(** ** What the adapter receives from the bridge *)

(** The reply of [fetch('http://localhost:3000/api/chat', ...)]:
    [http_json] is what [response.json()] parses, [None] when the body
    is not JSON. *)
Record HttpReply : Type := mkHttpReply
  { http_status : Z; http_statusText : string; http_json : option value }.

(** [response.ok] *)
Definition ok (r : HttpReply) : bool :=
  (200 <=? http_status r) && (http_status r <=? 299).

(** The connection to the bridge: the posted JSON body to the reply, or
    the rejection of [fetch]. *)
Definition Transport : Type := value -> Exc HttpReply.

(** ** What the adapter hands back to the SDK *)

Record Usage : Type := mkUsage
  { prompt_tokens : float; completion_tokens : float; total_tokens : float }.

(** [delta: { content: ... }] or [delta: {}] *)
Record Delta : Type := mkDelta { delta_content : option value }.

(** [finish_reason] is [null] ([None]) or a string. *)
Record ChunkChoice : Type := mkChunkChoice
  { chunk_index : Z; delta : Delta; chunk_finish_reason : option string }.

Record Chunk : Type := mkChunk
  { chunk_id : string; chunk_object : string; chunk_created : Z; chunk_model : value;
    chunk_choices : list ChunkChoice; chunk_usage : option Usage }.

(** One [controller.enqueue]: ["data: " + JSON.stringify(chunk) + "\n\n"]
    or ["data: [DONE]\n\n"]. *)
Inductive SseEvent : Type :=
| Data (chunk : Chunk)
| Done.

Record ChatMessage : Type := mkChatMessage { content : value; role : string }.

Record Choice : Type := mkChoice
  { index : Z; choice_message : ChatMessage; finish_reason : string }.

Record Completion : Type := mkCompletion
  { choices : list Choice; model : value; usage : Usage }.

(** The [Response] returned, status 200 in both cases. *)
Inductive Response : Type :=
| EventStream (events : list SseEvent)
| Json (completion : Completion).

(** How the override ends: a [Response] returned, or
    [new Response(JSON.stringify({ error }), { status })] thrown. *)
Inductive Outcome : Type :=
| Returns (response : Response)
| Throws (status : Z) (error : option string).

(** ** Building the bridge request *)

(** [msg.content.find((part) => part.type === 'text')] *)
Fixpoint find_text (parts : list value) : Exc value :=
  match parts with
  | [] => Ok JUndefined
  | part :: rest =>
      t <- get part "type" ;;
      if strict_eq_str t "text" then Ok part else find_text rest
  end.

(** The callback of [originalRequestBody.messages?.map], up to the
    [{ content }] wrapper. *)
Definition normalizeContent (msg : value) : Exc value :=
  c <- get msg "content" ;;
  match c with
  | JStr _ => Ok c
  | JArr parts =>
      textPart <- find_text parts ;;
      text <- get_opt textPart "text" ;;
      Ok (or_else text (JStr ""))
  | _ => Ok (JStr "")
  end.

(** The object given to [JSON.stringify] as the body of the POST. *)
Definition buildBridgeRequest (originalRequestBody : value) : Exc value :=
  messages <- get originalRequestBody "messages" ;;
  mapped <- match messages with
            | JUndefined | JNull => Ok JUndefined
            | JArr items =>
                l <- mapM (fun msg =>
                             c <- normalizeContent msg ;;
                             Ok (json_object [("content", c)])) items ;;
                Ok (JArr l)
            | _ => Throw (TypeError "originalRequestBody.messages?.map is not a function")
            end ;;
  Ok (json_object [("messages", or_else mapped (JArr []))]).

(** ** The content normalization in the words of the specification *)

(** A typed part: an object with a string [type], and with a string
    [text] when the type is "text". *)
Definition typedPart (part : value) : bool :=
  match part with
  | JObj fields =>
      match own fields "type" with
      | Some (JStr t) =>
          if String.eqb t "text"
          then match own fields "text" with
               | Some (JStr _) => true
               | _ => false
               end
          else true
      | _ => false
      end
  | _ => false
  end.

Definition isTextPart (part : value) : bool :=
  match part with
  | JObj fields =>
      match own fields "type" with
      | Some (JStr t) => String.eqb t "text"
      | _ => false
      end
  | _ => false
  end.

Definition textOf (part : value) : string :=
  match part with
  | JObj fields =>
      match own fields "text" with
      | Some (JStr text) => text
      | _ => ""
      end
  | _ => ""
  end.

(** The text of the first part whose type is text, else the empty
    string. *)
Definition firstText (parts : list value) : string :=
  match find isTextPart parts with
  | Some part => textOf part
  | None => ""
  end.

Section Runtime.
Variable StringToNumber : string -> float.
Variable NumberToString : float -> string.

(** ** Calling the bridge and checking its reply *)

(** From the POST to the check of [result.success].  The [console.error]
    calls are left out; the text of the [SyntaxError] of [response.json()]
    stands for whatever the engine says. *)
Definition callBridge (bridge : Transport) (originalRequestBody : value) : Exc value :=
  request <- buildBridgeRequest originalRequestBody ;;
  reply <- bridge request ;;
  if negb (ok reply)
  then Throw (Error ("VS Code LLM Bridge error: " ++ http_statusText reply))
  else
    result <- match http_json reply with
              | Some v => Ok v
              | None => Throw (Error "Unexpected end of JSON input")
              end ;;
    success <- get result "success" ;;
    if negb (truthy success)
    then
      error <- get result "error" ;;
      text <- ToString NumberToString error ;;
      Throw (Error ("VS Code LLM error: " ++ text))
    else Ok result.

(** ** Transforming the reply *)

(** [result.model?.X && !isNaN(Number(result.model.X)) ? Number(result.model.X) : 0] *)
Definition usageCounter (result : value) (field : string) : Exc float :=
  resultModel <- get result "model" ;;
  counter <- get_opt resultModel field ;;
  if truthy counter
  then
    n <- ToNumber StringToNumber NumberToString counter ;;
    if negb (isNaN n)
    then ToNumber StringToNumber NumberToString counter
    else Ok 0%float
  else Ok 0%float.

Definition usageOf (result : value) : Exc Usage :=
  p <- usageCounter result "promptTokens" ;;
  c <- usageCounter result "completionTokens" ;;
  t <- usageCounter result "totalTokens" ;;
  Ok (mkUsage p c t).

(** [result.model?.id || modelNameOption] *)
Definition modelOf (result : value) (modelNameOption : string) : Exc value :=
  resultModel <- get result "model" ;;
  i <- get_opt resultModel "id" ;;
  Ok (or_else i (JStr modelNameOption)).

(** [result.response || ''] *)
Definition responseOf (result : value) : Exc value :=
  r <- get result "response" ;;
  Ok (or_else r (JStr "")).

(** The [start] method of the [ReadableStream]; [now k] is what the k-th
    call of [Date.now()] returns.  An exception inside [start] leaves the
    constructor, so no stream is returned then. *)
Definition synthesizeStream (now : nat -> Z) (modelNameOption : string) (result : value)
  : Exc (list SseEvent) :=
  m1 <- modelOf result modelNameOption ;;
  text <- responseOf result ;;
  let contentChunk :=
    mkChunk ("chatcmpl-" ++ show_Z (now 0%nat)) "chat.completion.chunk" (now 1%nat / 1000) m1
            [mkChunkChoice 0 (mkDelta (Some text)) None] None in
  m2 <- modelOf result modelNameOption ;;
  u <- usageOf result ;;
  let finalChunk :=
    mkChunk ("chatcmpl-" ++ show_Z (now 2%nat) ++ "-final") "chat.completion.chunk"
            (now 3%nat / 1000) m2
            [mkChunkChoice 0 (mkDelta None) (Some "stop")] (Some u) in
  Ok [Data contentChunk; Data finalChunk; Done].

Definition completionOf (modelNameOption : string) (result : value) : Exc Completion :=
  text <- responseOf result ;;
  m <- modelOf result modelNameOption ;;
  u <- usageOf result ;;
  Ok (mkCompletion [mkChoice 0 (mkChatMessage text "assistant") "stop"] m u).

(** The body of the [try] block. *)
Definition fetchTry (bridge : Transport) (now : nat -> Z) (modelNameOption : string)
  (originalRequestBody : value) : Exc Response :=
  s <- get originalRequestBody "stream" ;;
  let isStreamingRequest := strict_eq_true s in
  result <- callBridge bridge originalRequestBody ;;
  if isStreamingRequest
  then events <- synthesizeStream now modelNameOption result ;; Ok (EventStream events)
  else completion <- completionOf modelNameOption result ;; Ok (Json completion).

(** The [fetch] override, from the parsed body of the SDK's request
    ([JSON.parse(requestOptions.body)]) on.  Nothing thrown inside the
    [try] is a [Response], so the [catch] always wraps the message in a
    new one. *)
Definition fetch (bridge : Transport) (now : nat -> Z) (modelNameOption : string)
  (originalRequestBody : value) : Outcome :=
  match fetchTry bridge now modelNameOption originalRequestBody with
  | Ok response => Returns response
  | Throw error => Throws 500 (message error)
  end.

End Runtime.

(** The content fields of the delta events of a stream, in order. *)
Definition deltaContents (events : list SseEvent) : list value :=
  flat_map (fun e => match e with
                     | Data c =>
                         flat_map (fun ch => match delta_content (delta ch) with
                                             | Some v => [v]
                                             | None => []
                                             end) (chunk_choices c)
                     | Done => []
                     end) events.

(** String concatenation of the contents that are strings. *)
Fixpoint concatText (contents : list value) : string :=
  match contents with
  | [] => ""
  | JStr s :: rest => s ++ concatText rest
  | _ :: rest => concatText rest
  end.

(** ** The adapter in front of this bridge *)

(** The reason phrase Node sends with the status codes the bridge uses. *)
Definition reasonPhrase (status : Z) : string :=
  if status =? 200 then "OK"
  else if status =? 400 then "Bad Request"
  else if status =? 404 then "Not Found"
  else if status =? 500 then "Internal Server Error"
  else "".

(** A working connection to [chatHandler]: the request is parsed by
    [express.json()], the reply is what [res.status(..).json(..)] sent. *)
Definition throughBridge (host : Bridge.Host) : Transport :=
  fun request =>
    let (reply, _) := Bridge.chatHandler host request in
    Ok (mkHttpReply (Bridge.status reply) (reasonPhrase (Bridge.status reply))
                    (Some (Bridge.json reply))).

End Adapter.

(* ================================================================== *)
(** * Sample hosts, requests and replies                               *)
(* ================================================================== *)

Module Samples.
Import Js.
Local Open Scope Z_scope.

Definition gpt4o : Bridge.Model := Bridge.mkModel "gpt-4o" "copilot" "gpt" "GPT-4o".
Definition claude : Bridge.Model := Bridge.mkModel "claude-3.5-sonnet" "copilot" "claude" "Claude".

(** A host with two models that answers every request with the text "4". *)
Definition answeringHost : Bridge.Host :=
  Bridge.mkHost (fun _ => Ok [gpt4o; claude])
                (fun _ _ _ => Ok (Bridge.mkChatResponse
                                    [Bridge.LanguageModelTextPart "4"] None)).

(** A host without models. *)
Definition emptyHost : Bridge.Host :=
  Bridge.mkHost (fun _ => Ok [])
                (fun _ _ _ => Ok (Bridge.mkChatResponse [] None)).

(** A host whose model rejects the request with an error that carries an
    empty message (as an [Error] built without a message does). *)
Definition refusingHost : Bridge.Host :=
  Bridge.mkHost (fun _ => Ok [gpt4o]) (fun _ _ _ => Throw (Thrown (Some ""))).

Definition emptyMessages : value := JObj [("messages", JArr [])].

Definition oneMessage : value :=
  JObj [("messages", JArr [JObj [("content", JStr "2+2?")]])].


(** [[{type:"text", text:"hi"}, {type:"image", url:"x"}]] *)
Definition textAndImage : value :=
  JArr [JObj [("type", JStr "text"); ("text", JStr "hi")];
        JObj [("type", JStr "image"); ("url", JStr "x")]].

(** A streaming chat-completion request of the SDK. *)
Definition streamingRequest : value :=
  JObj [("model", JStr "o1"); ("stream", JBool true);
        ("messages", JArr [JObj [("role", JStr "user"); ("content", JStr "2+2?")]])].

Definition plainRequest : value :=
  JObj [("model", JStr "o1");
        ("messages", JArr [JObj [("role", JStr "user"); ("content", JStr "2+2?")]])].

(** A bridge reply whose [promptTokens] counter is an object with an own
    [toString] property. *)
Definition oddCounterResult : value :=
  JObj [("success", JBool true); ("response", JStr "4");
        ("model", JObj [("id", JStr "gpt-4o");
                        ("promptTokens", JObj [("toString", JStr "12")])])].

Definition oddCounterBridge : Adapter.Transport :=
  fun _ => Ok (Adapter.mkHttpReply 200 "OK" (Some oddCounterResult)).

(** A bridge that answers 200 with [success: false]. *)
Definition softFailureBridge : Adapter.Transport :=
  fun _ => Ok (Adapter.mkHttpReply 200 "OK"
                 (Some (JObj [("success", JBool false); ("error", JStr "quota exceeded")]))).

Definition clock : nat -> Z := fun k => 1700000000123 + Z.of_nat k.

(** Port 3000 is taken, every other port is free. *)
Definition port3000Busy : Bridge.Network :=
  fun port => if port =? 3000 then Bridge.ErrorEvent "EADDRINUSE" "listen EADDRINUSE"
              else Bridge.Listening.

Definition stopped : Bridge.State := Bridge.mkState None 3000 false.
Definition running : Bridge.State := Bridge.mkState (Some 3000) 3000 true.

End Samples.

(* ================================================================== *)
(** * The rest of the extension: model listing, shutdown, chat view    *)
(* ================================================================== *)

Module Extension.
Import Js Bridge.
Local Open Scope exc_scope.

(** A chat model as [vscode.lm.selectChatModels()] lists it: the fields
    the chat reply copies, [maxInputTokens] (a Number, or [undefined]),
    and whether [countTokens] is truthy. *)
Record ChatModel : Type := mkChatModel
  { details : Model; maxInputTokens : value; hasCountTokens : bool }.

(** The Number of a length (exact below 2^53). *)
Fixpoint number_of_nat (n : nat) : float :=
  match n with
  | O => 0%float
  | S k => (number_of_nat k + 1)%float
  end.

(** What a client parses back of a Number sent through
    [JSON.stringify]: NaN and the infinities are written as [null], and
    the sign of a zero is lost. *)
Definition jsonNumber (v : value) : value :=
  match v with
  | JNum x =>
      if is_finite x then (if is_zero x then JNum 0%float else v) else JNull
  | _ => v
  end.

(** The field [k] of an object, [undefined] when there is none. *)
Definition field (o : value) (k : string) : value :=
  match get o k with
  | Ok v => v
  | Throw _ => JUndefined
  end.

(** The text values of the text parts of a stream, in order. *)
Definition texts (parts : list StreamPart) : list string :=
  flat_map (fun part => match part with
                        | LanguageModelTextPart text => [text]
                        | OtherPart => []
                        end) parts.

(** [{ id: v.id, vendor: v.vendor, family: v.family }] for a [v] that is
    neither [null] nor [undefined]. *)
Definition selectorFrom (v : value) : Selector :=
  mkSelector (field v "id") (field v "vendor") (field v "family").

(** ** [app.get('/api/models', ...)] *)

(** One element of [modelInfo], as the reply carries it. *)
Definition modelEntry (model : ChatModel) : value :=
  json_object [("id", JStr (model_id (details model)));
               ("vendor", JStr (model_vendor (details model)));
               ("family", JStr (model_family (details model)));
               ("name", JStr (model_name (details model)));
               ("maxInputTokens", jsonNumber (maxInputTokens model));
               ("countTokens", JBool (hasCountTokens model))].

(** The handler, given what [vscode.lm.selectChatModels()] answers. *)
Definition modelsHandler (listing : Exc (list ChatModel)) : Reply :=
  match listing with
  | Ok models =>
      let modelInfo := map modelEntry models in
      mkReply 200 (json_object [("success", JBool true);
                                ("models", JArr modelInfo);
                                ("count", JNum (number_of_nat (List.length modelInfo)))])
  | Throw error => reply500 error
  end.

(** ** [app.get('/health', ...)]; [timestamp] is [new Date().toISOString()] *)
Definition healthHandler (timestamp : string) : Reply :=
  mkReply 200 (json_object [("status", JStr "ok"); ("timestamp", JStr timestamp);
                            ("extension", JStr "bolt-dyi-vsllm")]).

(** ** [deactivate]: the server is closed without a callback and
    [server] is cleared at once; the tree view is not told. *)
Definition deactivate (st : State) : State * list Effect :=
  match server st with
  | Some _ => (mkState None (serverPort st) (serverRunning st), [Close])
  | None => (st, [])
  end.

(** ** [ChatWebviewProvider] *)

(** [this._view] (set or not) and the module-level variables
    [selectedModel] ([null] at first) and [availableModels]. *)
Record Session : Type := mkSession
  { view : bool; selectedModel : value; availableModels : list value }.

(** The messages posted to the webview, by their [command]. *)
Inductive Posted : Type :=
| PostThinking
| PostError (text : string)
| PostResponse (text : string) (model : value)
| PostModelsLoaded (models : list value) (selected : value)
| PostModelSelected (model : value).

(** [`${error.message}`] *)
Definition messageText (error : exn) : string :=
  match message error with
  | Some m => m
  | None => "undefined"
  end.

(** One element of [availableModels]. *)
Definition availableEntry (model : ChatModel) : value :=
  JObj [("id", JStr (model_id (details model)));
        ("vendor", JStr (model_vendor (details model)));
        ("family", JStr (model_family (details model)));
        ("name", JStr (model_name (details model)));
        ("maxInputTokens", maxInputTokens model)].

(** [_loadModels], given what [vscode.lm.selectChatModels()] answers. *)
Definition loadModels (listing : Exc (list ChatModel)) (s : Session)
  : Session * list Posted :=
  match listing with
  | Ok models =>
      let available := map availableEntry models in
      let selected :=
        match available with
        | first :: _ =>
            if view s && negb (truthy (selectedModel s)) then first else selectedModel s
        | [] => selectedModel s
        end in
      (mkSession (view s) selected available,
       if view s then [PostModelsLoaded available selected] else [])
  | Throw error =>
      (s, if view s then [PostError ("Error loading models: " ++ messageText error)] else [])
  end.

(** The [try] block of [_handleSendMessage] from the selection of the
    model on: the message that ends the exchange. *)
Definition sendTry (host : Host) (selected text : value) : Handler Posted :=
  selector <~ lift (i <- get selected "id" ;;
                    v <- get selected "vendor" ;;
                    f <- get selected "family" ;;
                    Ok (mkSelector i v f)) ;;
  models <~ callSelectChatModels host (Some selector) ;;
  match models with
  | [] => hret (PostError "Selected model is not available.")
  | model :: _ =>
      response <~ callSendRequest host model [text] (JObj []) ;;
      fullResponse <~ lift (drain response) ;;
      hret (PostResponse fullResponse
              (JObj [("name", JStr (model_name model));
                     ("vendor", JStr (model_vendor model));
                     ("family", JStr (model_family model))]))
  end.

(** [_handleSendMessage]: the messages posted, in order, and the host
    calls made. *)
Definition handleSendMessage (host : Host) (s : Session) (text : value)
  : list Posted * list HostCall :=
  if negb (view s) then ([], [])
  else if negb (truthy (selectedModel s))
  then ([PostError "No model selected. Please select a model first."], [])
  else
    match sendTry host (selectedModel s) text with
    | (trace, Ok final) => ([PostThinking; final], trace)
    | (trace, Throw error) =>
        ([PostThinking; PostError ("Error: " ++ messageText error)], trace)
    end.

(** The listener given to [onDidReceiveMessage] in [resolveWebviewView]
    (the view is set by then): the new session and the messages posted. *)
Definition onDidReceiveMessage (host : Host) (listing : Exc (list ChatModel))
  (s : Session) (msg : value) : Exc (Session * list Posted) :=
  command <- get msg "command" ;;
  if strict_eq_str command "sendMessage" then
    text <- get msg "text" ;;
    Ok (s, fst (handleSendMessage host s text))
  else if strict_eq_str command "getModels" then
    Ok (loadModels listing s)
  else if strict_eq_str command "selectModel" then
    model <- get msg "model" ;;
    Ok (mkSession (view s) model (availableModels s), [PostModelSelected model])
  else Ok (s, []).

(** The messages after which the webview script calls
    [setThinking(false)]. *)
Definition releasesInput (p : Posted) : bool :=
  match p with
  | PostResponse _ _ | PostError _ => true
  | _ => false
  end.

End Extension.

(* ================================================================== *)
(** * The rest of the provider: health check, model list, first version *)
(* ================================================================== *)

Module Provider.
Import Js Adapter.
Local Open Scope exc_scope.

(** What the two GET requests of the provider come back with. *)
Record Server : Type := mkServer
  { health_reply : Exc HttpReply; models_reply : Exc HttpReply }.

Record Health : Type := mkHealth { isHealthy : bool; health_message : string }.

Record ModelInfo : Type := mkModelInfo
  { name : value; label : string; provider : string; maxTokenAllowed : value }.

(** [await response.json()] *)
Definition jsonOf (response : HttpReply) : Exc value :=
  match http_json response with
  | Some v => Ok v
  | None => Throw (Error "Unexpected end of JSON input")
  end.

(** [model.split('-')[0]]: the text before the first hyphen. *)
Fixpoint familyOf (model : string) : string :=
  match model with
  | EmptyString => EmptyString
  | String c rest => if Ascii.eqb c "-"%char then EmptyString else String c (familyOf rest)
  end.

(** The body the first version of the override posts: the messages,
    normalized as in the later version, and a selector made from the
    model name. *)
Definition buildBridgeRequestV1 (model : string) (originalBody : value) : Exc value :=
  messages <- get originalBody "messages" ;;
  mapped <- match messages with
            | JUndefined | JNull => Ok JUndefined
            | JArr items =>
                l <- mapM (fun msg =>
                             c <- normalizeContent msg ;;
                             Ok (json_object [("content", c)])) items ;;
                Ok (JArr l)
            | _ => Throw (TypeError "originalBody.messages?.map is not a function")
            end ;;
  Ok (json_object [("messages", or_else mapped (JArr []));
                   ("model", json_object [("id", JStr model);
                                          ("vendor", JStr "copilot");
                                          ("family", JStr (familyOf model))]);
                   ("options", JObj [])]).

(** The first version's answer: no [index] in the choice, and a usage
    that is written out as zeros. *)
Record ChoiceV1 : Type := mkChoiceV1
  { v1_message : ChatMessage; v1_finish_reason : string }.

Record CompletionV1 : Type := mkCompletionV1
  { v1_choices : list ChoiceV1; v1_model : value; v1_usage : Usage }.

Section Runtime.
Variable NumberToString : float -> string.

(** [checkHealth], given what [fetch('http://localhost:3000/health')]
    comes back with. *)
Definition checkHealth (health : Exc HttpReply) : Health :=
  match (response <- health ;;
         if ok response
         then
           data <- jsonOf response ;;
           timestamp <- get data "timestamp" ;;
           text <- ToString NumberToString timestamp ;;
           Ok (mkHealth true ("✅ VS Code LLM Extension is running (" ++ text ++ ")"))
         else Ok (mkHealth false "❌ VS Code LLM Extension server responded with error"))
  with
  | Ok health => health
  | Throw _ => mkHealth false "❌ VS Code LLM Extension is not running on localhost:3000"
  end.

(** The callback of [data.models.map]. *)
Definition toModelInfo (model : value) : Exc ModelInfo :=
  id <- get model "id" ;;
  n <- get model "name" ;;
  nameText <- ToString NumberToString n ;;
  v <- get model "vendor" ;;
  vendorText <- ToString NumberToString v ;;
  m <- get model "maxInputTokens" ;;
  Ok (mkModelInfo id (nameText ++ " (" ++ vendorText ++ ")") "VS LLM"
                  (or_else m (JNum 8000%float))).

(** The [try] block of [getDynamicModels]; every path that does not
    return falls through to the final [return []]. *)
Definition getDynamicModelsTry (server : Server) : Exc (list ModelInfo) :=
  let health := checkHealth (health_reply server) in
  if negb (isHealthy health) then Ok []
  else
    response <- models_reply server ;;
    if negb (ok response) then Ok []
    else
      data <- jsonOf response ;;
      success <- get data "success" ;;
      if truthy success
      then
        models <- get data "models" ;;
        if truthy models
        then match models with
             | JArr items => mapM toModelInfo items
             | _ => Throw (TypeError "data.models.map is not a function")
             end
        else Ok []
      else Ok [].

Definition getDynamicModels (server : Server) : list ModelInfo :=
  match getDynamicModelsTry server with
  | Ok models => models
  | Throw _ => []
  end.

(** The first version of the [fetch] override: always one plain
    completion; the [catch] rethrows what it caught. *)
Definition fetchV1 (bridge : Transport) (model : string) (originalBody : value)
  : Exc CompletionV1 :=
  request <- buildBridgeRequestV1 model originalBody ;;
  reply <- bridge request ;;
  if negb (ok reply)
  then Throw (Error ("VS Code LLM Bridge error: " ++ http_statusText reply))
  else
    result <- jsonOf reply ;;
    success <- get result "success" ;;
    if negb (truthy success)
    then
      error <- get result "error" ;;
      text <- ToString NumberToString error ;;
      Throw (Error ("VS Code LLM error: " ++ text))
    else
      content <- responseOf result ;;
      m <- modelOf result model ;;
      Ok (mkCompletionV1 [mkChoiceV1 (mkChatMessage content "assistant") "stop"] m
                         (mkUsage 0 0 0)).

End Runtime.

(** A working connection to the two GET endpoints of the extension. *)
Definition extensionServer (timestamp : string)
  (listing : Exc (list Extension.ChatModel)) : Server :=
  let health := Extension.healthHandler timestamp in
  let models := Extension.modelsHandler listing in
  mkServer (Ok (mkHttpReply (Bridge.status health) (reasonPhrase (Bridge.status health))
                            (Some (Bridge.json health))))
           (Ok (mkHttpReply (Bridge.status models) (reasonPhrase (Bridge.status models))
                            (Some (Bridge.json models)))).

End Provider.

(** ** The ways a [POST /api/chat] can go *)

Module ChatRuns.
Import Js Bridge.

(** Every way through the handler: the reply sent and the host calls
    made, with what the host answered on the way. *)
Inductive ChatRun (host : Host) : Reply -> list HostCall -> Prop :=
| RunThrowsEarly (e : exn) :
    ChatRun host (reply500 e) []
| RunInvalid :
    ChatRun host reply400 []
| RunSelectionFails (selector : option Selector) (e : exn) :
    selectChatModels host selector = Throw e ->
    ChatRun host (reply500 e) [CallSelectChatModels selector]
| RunNoModel (selector : option Selector) :
    selectChatModels host selector = Ok [] ->
    ChatRun host reply404 [CallSelectChatModels selector]
| RunBadMessage (selector : option Selector) (model : Model) (rest : list Model) (e : exn) :
    selectChatModels host selector = Ok (model :: rest) ->
    ChatRun host (reply500 e) [CallSelectChatModels selector]
| RunRequestFails (selector : option Selector) (model : Model) (rest : list Model)
    (chatMessages : list value) (options : value) (e : exn) :
    selectChatModels host selector = Ok (model :: rest) ->
    ChatRun host (reply500 e)
      [CallSelectChatModels selector; CallSendRequest model chatMessages options]
| RunAnswered (selector : option Selector) (model : Model) (rest : list Model)
    (chatMessages : list value) (options : value) (response : ChatResponse)
    (fullResponse : string) :
    selectChatModels host selector = Ok (model :: rest) ->
    sendRequest host model chatMessages options = Ok response ->
    drain response = Ok fullResponse ->
    ChatRun host (reply200 fullResponse model)
      [CallSelectChatModels selector; CallSendRequest model chatMessages options].

(** The texts of a list, one after the other. *)
Definition joinTexts (l : list string) : string := fold_right append "" l.

End ChatRuns.

(** ** The script of the chat webview *)

Module Webview.
Import Js Extension.

(** What a message [div] shows: [textContent], or for an answer the
    [innerHTML] made of the model's name and the text. *)
Inductive Body : Type :=
| TextContent (text : string)
| InnerHTML (modelName : value) (text : string).

(** A [div] of the chat; its class is ["message " + kind + "-message"]. *)
Record Bubble : Type := mkBubble { kind : string; body : Body }.

(** The script's variables [models], [selectedModel] and [isThinking],
    the text in the input, and the children of [chatMessages].  The send
    button and the input are disabled exactly while [isThinking]; the
    options of the model selector are not modelled. *)
Record Script : Type := mkScript
  { models : list value; selected : value; isThinking : bool;
    inputValue : string; chat : list Bubble }.

(** What the script posts to the extension. *)
Inductive ToExtension : Type :=
| AskSendMessage (text : string)
| AskGetModels
| AskSelectModel (model : value).

Definition isThinkingBubble (b : Bubble) : bool := String.eqb (kind b) "thinking".

(** [addMessage(text, type, model)] *)
Definition addMessage (text type : string) (model : value) (st : Script) : Script :=
  let messageDiv :=
    mkBubble type
      (if String.eqb type "assistant" && truthy model
       then InnerHTML (field model "name") text
       else TextContent text) in
  let kept :=
    if negb (String.eqb type "thinking")
    then filter (fun b => negb (isThinkingBubble b)) (chat st)
    else chat st in
  mkScript (models st) (selected st) (isThinking st) (inputValue st) (kept ++ [messageDiv])%list.

(** [setThinking(thinking)] *)
Definition setThinking (thinking : bool) (st : Script) : Script :=
  mkScript (models st) (selected st) thinking (inputValue st) (chat st).

(** The listener for the messages of the extension. *)
Definition onMessage (st : Script) (msg : Posted) : Script :=
  match msg with
  | PostModelsLoaded modelList chosen =>
      mkScript modelList chosen (isThinking st) (inputValue st) (chat st)
  | PostModelSelected model =>
      mkScript (models st) model (isThinking st) (inputValue st) (chat st)
  | PostResponse text model =>
      setThinking false (addMessage text "assistant" model st)
  | PostError text =>
      setThinking false (addMessage text "error" JUndefined st)
  | PostThinking =>
      setThinking true (addMessage "Thinking..." "thinking" JUndefined st)
  end.

(** The messages of the extension, handled in the order they were
    posted. *)
Definition deliver (st : Script) (posted : list Posted) : Script :=
  fold_left onMessage posted st.

Section Trim.
(** [String.prototype.trim] *)
Variable trim : string -> string.

(** [sendMessage()] *)
Definition sendMessage (st : Script) : Script * list ToExtension :=
  let text := trim (inputValue st) in
  if String.eqb text "" || isThinking st then (st, [])
  else if negb (truthy (selected st))
  then (addMessage "Please select a model first." "error" JUndefined st, [])
  else
    let st1 := addMessage text "user" JUndefined st in
    (mkScript (models st1) (selected st1) (isThinking st1) "" (chat st1),
     [AskSendMessage text]).

End Trim.

End Webview.

Module UsageReport.
Import Js.

Section Runtime.
Variable StringToNumber : string -> float.
Variable NumberToString : float -> string.

(** What the specification asks of one usage counter of the adapter's
    answer: [n] is the number reported for the field of the bridge's reply
    whose value is [counter] ([undefined] when the field is missing).  The
    conversion [Number(counter)] returns some [x]; [n] is never NaN; it is
    0 when the field is missing (or falsy in any other way) and when [x]
    is NaN; otherwise it is [x]. *)
Definition reports (counter : value) (n : float) : Prop :=
  exists x : float,
    ToNumber StringToNumber NumberToString counter = Ok x /\
    isNaN n = false /\
    (counter = JUndefined -> n = 0%float) /\
    (truthy counter = false -> n = 0%float) /\
    (isNaN x = true -> n = 0%float) /\
    (truthy counter = true -> isNaN x = false -> n = x).

End Runtime.

(** A bridge reply with a numeric [promptTokens], no [completionTokens]
    and a [totalTokens] that is not a number. *)
Definition countedResult : value :=
  JObj [("success", JBool true); ("response", JStr "4");
        ("model", JObj [("id", JStr "gpt-4o");
                        ("promptTokens", JNum 12%float);
                        ("totalTokens", JStr "n/a")])].

End UsageReport.

Module MoreSamples.
Import Js.

Definition gpt4oListed : Extension.ChatModel :=
  Extension.mkChatModel Samples.gpt4o (JNum 64000%float) true.

Definition claudeListed : Extension.ChatModel :=
  Extension.mkChatModel Samples.claude JUndefined true.

Definition listing : Exc (list Extension.ChatModel) := Ok [gpt4oListed; claudeListed].

(** A session with the view open and the first model chosen. *)
Definition chosen : Extension.Session :=
  Extension.mkSession true (Extension.availableEntry gpt4oListed) [].

Definition fresh : Extension.Session := Extension.mkSession true JNull [].

(** Ports 3000 and 3001 are taken. *)
Definition bothBusy : Bridge.Network :=
  fun _ => Bridge.ErrorEvent "EADDRINUSE" "listen EADDRINUSE".

Definition allFree : Bridge.Network := fun _ => Bridge.Listening.

End MoreSamples.

(* ================================================================== *)
(** * Properties of [POST /api/chat]                                   *)
(* ================================================================== *)

Section ChatHandler.
Import Js Bridge.
Local Open Scope Z_scope.

Lemma isArray_truthy (v : value) : isArray v = true -> truthy v = true.
Proof. destruct v; simpl; congruence. Qed.

(** Reading [messages] off a body succeeds exactly when the destructuring
    of the body does. *)
Lemma get_messages_destructure (body messages : value) :
  get body "messages" = Ok messages ->
  exists requestedModel options,
    destructure body = Ok (messages, requestedModel, options).
Proof.
  destruct body; simpl; intros H; try discriminate;
    injection H as <-; eauto.
Qed.

(** The [try] block, once [messages] is an array, step by step: each
    host call, each place an exception can come from, and the reply or the
    exception it ends with. *)
Lemma chatTry_steps (host : Host) (body messages requestedModel options : value) :
  destructure body = Ok (messages, requestedModel, options) ->
  isArray messages = true ->
  chatTry host body =
  match selectorOf requestedModel with
  | Throw e => ([], Throw e)
  | Ok selector =>
      match selectChatModels host selector with
      | Throw e => ([CallSelectChatModels selector], Throw e)
      | Ok [] => ([CallSelectChatModels selector], Ok reply404)
      | Ok (model :: _) =>
          match mapM (fun msg => get msg "content") (elements messages) with
          | Throw e => ([CallSelectChatModels selector], Throw e)
          | Ok chatMessages =>
              let trace := [CallSelectChatModels selector;
                            CallSendRequest model chatMessages options] in
              match sendRequest host model chatMessages options with
              | Throw e => (trace, Throw e)
              | Ok response =>
                  match drain response with
                  | Throw e => (trace, Throw e)
                  | Ok fullResponse => (trace, Ok (reply200 fullResponse model))
                  end
              end
          end
      end
  end.
Proof.
  intros Hd Harr.
  unfold chatTry.
  rewrite Hd. cbn [lift hbind].
  rewrite (isArray_truthy _ Harr), Harr. cbn [negb orb].
  destruct (selectorOf requestedModel) as [selector|e]; cbn; [|reflexivity].
  destruct (selectChatModels host selector) as [[|model rest]|e]; cbn; try reflexivity.
  destruct (mapM _ (elements messages)) as [chatMessages|e]; cbn; [|reflexivity].
  destruct (sendRequest host model chatMessages options) as [response|e]; cbn; [|reflexivity].
  destruct (drain response) as [fullResponse|e]; reflexivity.
Qed.

(** The same for the handler, where every exception becomes a 500. *)
Lemma chatHandler_steps (host : Host) (body messages requestedModel options : value) :
  destructure body = Ok (messages, requestedModel, options) ->
  isArray messages = true ->
  chatHandler host body =
  match selectorOf requestedModel with
  | Throw e => (reply500 e, [])
  | Ok selector =>
      match selectChatModels host selector with
      | Throw e => (reply500 e, [CallSelectChatModels selector])
      | Ok [] => (reply404, [CallSelectChatModels selector])
      | Ok (model :: _) =>
          match mapM (fun msg => get msg "content") (elements messages) with
          | Throw e => (reply500 e, [CallSelectChatModels selector])
          | Ok chatMessages =>
              let trace := [CallSelectChatModels selector;
                            CallSendRequest model chatMessages options] in
              match sendRequest host model chatMessages options with
              | Throw e => (reply500 e, trace)
              | Ok response =>
                  match drain response with
                  | Throw e => (reply500 e, trace)
                  | Ok fullResponse => (reply200 fullResponse model, trace)
                  end
              end
          end
      end
  end.
Proof.
  intros Hd Harr.
  unfold chatHandler. rewrite (chatTry_steps host _ _ _ _ Hd Harr).
  destruct (selectorOf requestedModel) as [selector|e]; [|reflexivity].
  destruct (selectChatModels host selector) as [[|model rest]|e]; try reflexivity.
  destruct (mapM _ (elements messages)) as [chatMessages|e]; [|reflexivity].
  cbv zeta.
  destruct (sendRequest host model chatMessages options) as [response|e]; [|reflexivity].
  destruct (drain response) as [fullResponse|e]; reflexivity.
Qed.


(** Building the selector of a truthy [model] never throws. *)
Lemma selectorOf_present (requestedModel : value) :
  truthy requestedModel = true ->
  exists selector, selectorOf requestedModel = Ok (Some selector).
Proof.
  intros H. unfold selectorOf. rewrite H.
  destruct requestedModel; simpl in *; try discriminate; eauto.
Qed.

(** C2, as the handler does it: a body whose [messages] is missing or is
    anything but an array is answered 400 with [success: false] and the
    error "Messages array is required", before any host call; an array,
    the empty one included, passes the validation and is never answered
    400. *)
Theorem chat_rejects_non_array_messages :
  forall (host : Host) (body messages : value),
    get body "messages" = Ok messages ->
    (isArray messages = false -> chatHandler host body = (reply400, [])) /\
    (isArray messages = true -> status (fst (chatHandler host body)) <> 400).
Proof.
  intros host body messages Hget.
  destruct (get_messages_destructure _ _ Hget) as (requestedModel & options & Hd).
  split; intros Harr.
  - unfold chatHandler, chatTry. rewrite Hd. cbn [lift hbind].
    rewrite Harr. rewrite orb_true_r. reflexivity.
  - rewrite (chatHandler_steps host _ _ _ _ Hd Harr).
    destruct (selectorOf requestedModel) as [selector|e]; [|simpl; lia].
    destruct (selectChatModels host selector) as [[|model rest]|e]; try (simpl; lia).
    destruct (mapM _ (elements messages)) as [chatMessages|e]; [|simpl; lia].
    cbv zeta.
    destruct (sendRequest host model chatMessages options) as [response|e]; [|simpl; lia].
    destruct (drain response); simpl; lia.
Qed.

Lemma chat_rejects_non_array_messages_witness :
  chatHandler Samples.answeringHost (JObj [("messages", JStr "hello")]) = (reply400, []).
Proof.
  apply (proj1 (chat_rejects_non_array_messages Samples.answeringHost
                  (JObj [("messages", JStr "hello")]) (JStr "hello") eq_refl)).
  reflexivity.
Defined.

(** C2, as stated, fails on the empty array: the request passes the
    validation, the first model is invoked with no message and the reply
    is a 200. *)
Lemma chat_accepts_empty_messages :
  chatHandler Samples.answeringHost Samples.emptyMessages =
  (reply200 "4" Samples.gpt4o,
   [CallSelectChatModels None; CallSendRequest Samples.gpt4o [] (JObj [])]).
Proof. reflexivity. Qed.



(** C5, as the handler does it: once [messages] is an array, the reply has
    [success: true] exactly when it has a [response] and no [error]; a
    reply without [success: true] is the 404 with its fixed error text or
    a 500 whose [error] is the message of the exception that was caught,
    whatever that message is. *)
Theorem chat_reply_success_or_error :
  forall (host : Host) (body messages : value),
    get body "messages" = Ok messages ->
    isArray messages = true ->
    let reply := fst (chatHandler host body) in
    (replySuccess reply = true <->
     replyHas reply "response" = true /\ replyHas reply "error" = false) /\
    (replySuccess reply = false ->
     (reply = reply404 /\ replyError reply = Some "No language models available") \/
     (exists trace e,
         chatTry host body = (trace, Throw e) /\
         reply = reply500 e /\ replyError reply = message e)).
Proof.
  intros host body messages Hget Harr reply.
  destruct (get_messages_destructure _ _ Hget) as (requestedModel & options & Hd).
  assert (H500 : forall e, replySuccess (reply500 e) = false /\
                           replyHas (reply500 e) "response" = false /\
                           replyError (reply500 e) = message e).
  { intros [[m|]]; repeat split. }
  assert (Hcases :
            (exists text model, reply = reply200 text model) \/
            reply = reply404 \/
            (exists trace e, chatTry host body = (trace, Throw e) /\ reply = reply500 e)).
  { subst reply. unfold chatHandler.
    rewrite (chatTry_steps host _ _ _ _ Hd Harr).
    destruct (selectorOf requestedModel) as [selector|e];
      [|right; right; now exists [], e].
    destruct (selectChatModels host selector) as [[|model rest]|e].
    - now right; left.
    - destruct (mapM _ (elements messages)) as [chatMessages|e];
        [|right; right; now eexists _, e].
      cbv zeta.
      destruct (sendRequest host model chatMessages options) as [response|e];
        [|right; right; now eexists _, e].
      destruct (drain response) as [fullResponse|e];
        [|right; right; now eexists _, e].
      left. now exists fullResponse, model.
    - right; right. now eexists _, e. }
  destruct Hcases as [(text & model & ->) | [-> | (trace & e & Htry & ->)]].
  - split; [split; intros _; repeat split | discriminate 1].
  - split.
    + split; [discriminate 1 | intros [H _]; discriminate H].
    + intros _. left. split; reflexivity.
  - destruct (H500 e) as (Hs & Hr & He). split.
    + rewrite Hs, Hr. split; [discriminate 1 | intros [H _]; discriminate H].
    + intros _. right. exists trace, e. now repeat split.
Qed.

Lemma chat_reply_success_or_error_witness :
  replySuccess (fst (chatHandler Samples.answeringHost Samples.oneMessage)) = true <->
  replyHas (fst (chatHandler Samples.answeringHost Samples.oneMessage)) "response" = true /\
  replyHas (fst (chatHandler Samples.answeringHost Samples.oneMessage)) "error" = false.
Proof.
  apply (proj1 (chat_reply_success_or_error Samples.answeringHost Samples.oneMessage
                  (JArr [JObj [("content", JStr "2+2?")]]) eq_refl eq_refl)).
Defined.

(** C5, as stated, fails when the host rejects the request with an error
    whose message is empty: the reply has [success: false] and the empty
    string as [error]. *)
Lemma chat_error_may_be_empty :
  chatHandler Samples.refusingHost Samples.oneMessage =
  (mkReply 500 (JObj [("success", JBool false); ("error", JStr "")]),
   [CallSelectChatModels None;
    CallSendRequest Samples.gpt4o [JStr "2+2?"] (JObj [])]).
Proof. reflexivity. Qed.

End ChatHandler.

(* ================================================================== *)
(** * Properties of the server lifecycle                                *)
(* ================================================================== *)

Section Lifecycle.
Import Js Bridge.
Local Open Scope Z_scope.

(** Starting while a server object exists only warns. *)
Lemma startServer_already_running (net : Network) (st : State) (port : Z) :
  server st = Some port ->
  startServer net st = (st, [ShowWarningMessage "Server is already running!"]).
Proof. intros H. unfold startServer. now rewrite H. Qed.

(** A free port is taken at the first attempt. *)
Lemma startServer_free_port (net : Network) (st : State) :
  server st = None ->
  net (serverPort st) = Listening ->
  listenAttempts (snd (startServer net st)) = [serverPort st] /\
  serverRunning (fst (startServer net st)) = true.
Proof.
  intros Hs Hn. unfold startServer. rewrite Hs, Hn. split; reflexivity.
Qed.

(** However a start goes, [app.listen] is called with the preferred port
    and its successor at most. *)
Lemma startServer_attempts (net : Network) (st : State) :
  let attempts := listenAttempts (snd (startServer net st)) in
  attempts = [] \/ attempts = [serverPort st] \/
  attempts = [serverPort st; serverPort st + 1].
Proof.
  unfold startServer.
  destruct (server st); [now left|].
  destruct (net (serverPort st)) as [|code msg|msg] eqn:Hn.
  - right; left; reflexivity.
  - unfold onError. cbn [serverPort].
    destruct (String.eqb code "EADDRINUSE").
    + right; right. destruct (net (serverPort st + 1)); reflexivity.
    + right; left; reflexivity.
  - right; left; reflexivity.
Qed.

(** C4: when the preferred port P answers the first [listen] with
    EADDRINUSE, [listen] is called once more, on P+1, and never again:
    either that server comes up (running on P+1, nothing escapes), or the
    start fails for good: the second server object has no ['error']
    handler, so its failure leaves as an unhandled error and the server
    is not running. *)
Theorem start_retries_once_on_next_port :
  forall (net : Network) (st : State) (msg : string),
    server st = None ->
    net (serverPort st) = ErrorEvent "EADDRINUSE" msg ->
    let P := serverPort st in
    let st' := fst (startServer net st) in
    let effects := snd (startServer net st) in
    listenAttempts effects = [P; P + 1] /\
    ~ In (P + 2) (listenAttempts effects) /\
    ((net (P + 1) = Listening /\ serverRunning st' = true /\
      server st' = Some (P + 1) /\ serverPort st' = P + 1 /\
      existsb raises effects = false) \/
     (net (P + 1) <> Listening /\ existsb raises effects = true /\
      serverRunning st' = serverRunning st)).
Proof.
  intros net st msg Hs Hn P st' effects.
  subst st' effects. unfold startServer. rewrite Hs, Hn.
  unfold onError. cbn [String.eqb Ascii.eqb Bool.eqb serverPort serverRunning].
  fold P.
  destruct (net (P + 1)) as [|code' msg'|msg'] eqn:Hn1; cbn.
  - split; [reflexivity|]. split; [intros [H|[H|[]]]; lia|].
    left. repeat split.
  - split; [reflexivity|]. split; [intros [H|[H|[]]]; lia|].
    right. repeat split. discriminate.
  - split; [reflexivity|]. split; [intros [H|[H|[]]]; lia|].
    right. repeat split. discriminate.
Qed.

Lemma start_retries_once_on_next_port_witness :
  listenAttempts (snd (startServer Samples.port3000Busy Samples.stopped)) = [3000; 3001] /\
  serverRunning (fst (startServer Samples.port3000Busy Samples.stopped)) = true.
Proof.
  pose proof (start_retries_once_on_next_port Samples.port3000Busy Samples.stopped
                "listen EADDRINUSE" eq_refl eq_refl) as H.
  split; [exact (proj1 H) | reflexivity].
Defined.

(** Once its close callback has run, a stop leaves no server object. *)
Lemma stopServerSettled_stopped (st : State) :
  server (fst (stopServerSettled st)) = None.
Proof.
  unfold stopServerSettled, stopServer.
  destruct (server st) eqn:Hs; simpl; [reflexivity | exact Hs].
Qed.

(** C9: [stopServer] on a stopped server changes nothing and shows the
    warning "Server is not running!"; no call of [stopServer] raises, in
    whatever state; and of two stops in sequence (the first one's close
    callback having run), the second shows that warning and leaves the
    server stopped. *)
Theorem stop_twice_warns :
  forall st : State,
    (server st = None ->
     stopServer st = (st, [ShowWarningMessage "Server is not running!"])) /\
    existsb raises (snd (stopServer st)) = false /\
    (let st1 := fst (stopServerSettled st) in
     stopServerSettled st1 = (st1, [ShowWarningMessage "Server is not running!"]) /\
     server (fst (stopServerSettled st1)) = None /\
     existsb raises (snd (stopServerSettled st) ++ snd (stopServerSettled st1)) = false).
Proof.
  intros st. split; [|split].
  - intros Hs. unfold stopServer. now rewrite Hs.
  - unfold stopServer. destruct (server st); reflexivity.
  - cbv zeta.
    pose proof (stopServerSettled_stopped st) as H1.
    assert (H2 : stopServerSettled (fst (stopServerSettled st)) =
                 (fst (stopServerSettled st),
                  [ShowWarningMessage "Server is not running!"])).
    { unfold stopServerSettled at 1. unfold stopServer. now rewrite H1. }
    rewrite H2. repeat split; [exact H1|].
    unfold stopServerSettled, stopServer.
    destruct (server st); reflexivity.
Qed.

Lemma stop_twice_warns_witness :
  stopServer Samples.stopped =
  (Samples.stopped, [ShowWarningMessage "Server is not running!"]).
Proof. apply (proj1 (stop_twice_warns Samples.stopped)). reflexivity. Defined.

End Lifecycle.

(* ================================================================== *)
(** * Properties of the request the adapter builds                     *)
(* ================================================================== *)

Section BridgeRequest.
Import Js Adapter.
Local Open Scope exc_scope.

(** [s || ''] is [s] for every string [s]. *)
Lemma or_else_string (s : string) : or_else (JStr s) (JStr "") = JStr s.
Proof.
  unfold or_else. simpl.
  destruct (String.eqb s "") eqn:E; simpl; [|reflexivity].
  apply String.eqb_eq in E. now subst.
Qed.

(** On typed parts [find] does not throw, and finds what [List.find]
    finds. *)
Lemma find_text_typed (parts : list value) :
  forallb typedPart parts = true ->
  find_text parts =
  Ok (match find isTextPart parts with Some part => part | None => JUndefined end).
Proof.
  induction parts as [|part rest IH]; simpl; [reflexivity|].
  intros H. apply andb_true_iff in H as [Hp Hr].
  destruct part as [ | | | | | |fields]; try discriminate Hp.
  simpl in *.
  destruct (own fields "type") as [[ | | | |t| | ]|]; try discriminate Hp.
  simpl. destruct (String.eqb t "text"); [reflexivity | apply IH, Hr].
Qed.

(** A typed part found by [isTextPart] has a string [text]. *)
Lemma text_of_text_part (part : value) :
  typedPart part = true -> isTextPart part = true ->
  get_opt part "text" = Ok (JStr (textOf part)).
Proof.
  destruct part as [ | | | | | |fields]; try discriminate 1.
  unfold typedPart, isTextPart, get_opt, get, textOf. cbn [nullish].
  destruct (own fields "type") as [[ | | | |t| | ]|]; try discriminate 1.
  destruct (String.eqb t "text"); [|discriminate 2].
  destruct (own fields "text") as [[ | | | |text| | ]|]; try discriminate 1.
  reflexivity.
Qed.

(** C6: a string content is used verbatim; of an array of typed parts the
    result is the text of the first part whose type is "text", the empty
    string when there is none; any other content gives the empty string.
    With the three examples of the specification. *)
Theorem normalizeContent_spec :
  (forall (msg : value) (s : string),
      get msg "content" = Ok (JStr s) -> normalizeContent msg = Ok (JStr s)) /\
  (forall (msg : value) (parts : list value),
      get msg "content" = Ok (JArr parts) ->
      forallb typedPart parts = true ->
      normalizeContent msg = Ok (JStr (firstText parts))) /\
  (forall msg c : value,
      get msg "content" = Ok c ->
      isString c = false -> isArray c = false ->
      normalizeContent msg = Ok (JStr "")) /\
  normalizeContent (JObj [("content", Samples.textAndImage)]) = Ok (JStr "hi") /\
  normalizeContent (JObj [("content", JStr "hi")]) = Ok (JStr "hi") /\
  normalizeContent (JObj [("content", JArr [])]) = Ok (JStr "").
Proof.
  repeat split.
  - intros msg s H. unfold normalizeContent. now rewrite H.
  - intros msg parts H Hty. unfold normalizeContent, firstText.
    rewrite H. cbn [bind]. rewrite (find_text_typed _ Hty). cbn [bind].
    destruct (find isTextPart parts) as [part|] eqn:Hf.
    + apply find_some in Hf as [Hin Htext].
      assert (Hp : typedPart part = true).
      { rewrite forallb_forall in Hty. now apply Hty. }
      rewrite (text_of_text_part _ Hp Htext). cbn [bind].
      now rewrite or_else_string.
    + reflexivity.
  - intros msg c H Hs Ha. unfold normalizeContent. rewrite H. cbn [bind].
    destruct c; try reflexivity; discriminate.
Qed.

Lemma normalizeContent_spec_witness :
  normalizeContent (JObj [("content", Samples.textAndImage)]) = Ok (JStr "hi").
Proof.
  exact (proj1 (proj2 normalizeContent_spec)
           (JObj [("content", Samples.textAndImage)])
           (Bridge.elements Samples.textAndImage) eq_refl eq_refl).
Defined.

End BridgeRequest.

Section NoSelector.
Import Js Bridge Adapter.
Local Open Scope exc_scope.

(** The request posted to the bridge is an object with the single
    property [messages], an array. *)
Lemma buildBridgeRequest_shape (originalRequestBody request : value) :
  buildBridgeRequest originalRequestBody = Ok request ->
  exists contents, request = JObj [("messages", JArr contents)].
Proof.
  unfold buildBridgeRequest.
  destruct (get originalRequestBody "messages") as [messages|e]; [|discriminate 1].
  cbn [bind].
  destruct messages as [ | | | | |items| ]; try discriminate 1;
    try (intros [= <-]; now exists []).
  destruct (mapM _ items) as [l|e]; [|discriminate 1].
  intros [= <-]. now exists l.
Qed.

Lemma mapM_length {A B : Type} (f : A -> Exc B) (l : list A) (l' : list B) :
  mapM f l = Ok l' -> List.length l' = List.length l.
Proof.
  revert l'. induction l as [|a l IH]; simpl; intros l' H.
  - now injection H as <-.
  - destruct (f a) as [b|e]; [|discriminate H]. cbn [bind] in H.
    destruct (mapM f l) as [bs|e]; [|discriminate H].
    injection H as <-. simpl. now rewrite (IH bs eq_refl).
Qed.

(** The normalized content is never [undefined], so [{ content }] keeps
    its property when it is serialized. *)
Lemma normalizeContent_defined (msg c : value) :
  normalizeContent msg = Ok c ->
  json_object [("content", c)] = JObj [("content", c)].
Proof.
  unfold normalizeContent.
  destruct (get msg "content") as [v|e]; [|discriminate 1]. cbn [bind].
  destruct v; try (intros [= <-]; reflexivity).
  destruct (find_text items) as [textPart|e]; [|discriminate 1]. cbn [bind].
  destruct (get_opt textPart "text") as [text|e]; [|discriminate 1]. cbn [bind].
  intros [= <-]. unfold or_else.
  destruct (truthy text) eqn:Ht; [|reflexivity].
  destruct text; try discriminate Ht; reflexivity.
Qed.

Lemma mapM_wrap_content (items l : list value) :
  mapM (fun msg => c <- normalizeContent msg ;; Ok (json_object [("content", c)])) items
  = Ok l ->
  exists contents,
    mapM normalizeContent items = Ok contents /\
    l = map (fun c => JObj [("content", c)]) contents.
Proof.
  revert l. induction items as [|msg items IH]; simpl; intros l H.
  - injection H as <-. now exists [].
  - destruct (normalizeContent msg) as [c|e] eqn:Hc; [|discriminate H].
    cbn [bind] in H |- *.
    destruct (mapM _ items) as [l'|e]; [|discriminate H].
    injection H as <-.
    destruct (IH l' eq_refl) as (contents & -> & ->).
    exists (c :: contents). cbn [bind map].
    now rewrite (normalizeContent_defined _ _ Hc).
Qed.

(** The bridge reads back, message by message, the contents the adapter
    wrapped. *)
Lemma mapM_content_wrapped (contents : list value) :
  mapM (fun msg => get msg "content") (map (fun c => JObj [("content", c)]) contents) =
  Ok contents.
Proof.
  induction contents as [|c contents IH]; [reflexivity|].
  cbn [map mapM]. rewrite IH. reflexivity.
Qed.

(** C10: the body the adapter posts to [/api/chat] is [{ messages }] and
    nothing else, where [messages] holds, in order, one [{ content }] per
    message of the SDK's request, with the normalized content (none when
    the request has no messages).  It has no [model], and it is the same
    whatever else the SDK's request holds, its model name included.  So
    the bridge, given this body, selects without a selector, answers 404
    when the list is empty, and otherwise sends exactly these contents to
    the first model of the list and names that model in its reply. *)
Theorem bridge_request_has_no_selector :
  forall originalRequestBody request : value,
    buildBridgeRequest originalRequestBody = Ok request ->
    exists (messages : value) (contents : list value),
      get originalRequestBody "messages" = Ok messages /\
      (nullish messages = true \/ isArray messages = true) /\
      mapM normalizeContent (elements messages) = Ok contents /\
      List.length contents = List.length (elements messages) /\
      request = JObj [("messages", JArr (map (fun c => JObj [("content", c)]) contents))] /\
      get request "model" = Ok JUndefined /\
      (forall other : value,
          get other "messages" = get originalRequestBody "messages" ->
          buildBridgeRequest other = Ok request) /\
      (forall host : Host,
          chatHandler host request =
          match selectChatModels host None with
          | Throw e => (reply500 e, [CallSelectChatModels None])
          | Ok [] => (reply404, [CallSelectChatModels None])
          | Ok (model :: _) =>
              let trace := [CallSelectChatModels None;
                            CallSendRequest model contents (JObj [])] in
              match sendRequest host model contents (JObj []) with
              | Throw e => (reply500 e, trace)
              | Ok response =>
                  match drain response with
                  | Throw e => (reply500 e, trace)
                  | Ok fullResponse => (reply200 fullResponse model, trace)
                  end
              end
          end).
Proof.
  intros body request Hb.
  assert (Hshape :
    exists messages contents,
      get body "messages" = Ok messages /\
      (nullish messages = true \/ isArray messages = true) /\
      mapM normalizeContent (elements messages) = Ok contents /\
      request = JObj [("messages", JArr (map (fun c => JObj [("content", c)]) contents))]).
  { revert Hb. unfold buildBridgeRequest.
    destruct (get body "messages") as [messages|e]; [|discriminate 1].
    cbn [bind].
    destruct messages as [ | | | | |items| ]; try discriminate 1.
    - intros [= <-]. exists JUndefined, []. repeat split. now left.
    - intros [= <-]. exists JNull, []. repeat split. now left.
    - destruct (mapM _ items) as [l|e] eqn:Hl; [|discriminate 1].
      intros [= <-].
      destruct (mapM_wrap_content _ _ Hl) as (contents & Hc & ->).
      exists (JArr items), contents. repeat split; [now right | exact Hc]. }
  destruct Hshape as (messages & contents & Hm & Hkind & Hc & ->).
  exists messages, contents.
  split; [exact Hm|]. split; [exact Hkind|]. split; [exact Hc|].
  split; [exact (mapM_length _ _ _ Hc)|]. split; [reflexivity|].
  split; [reflexivity|]. split.
  - intros other Ho. unfold buildBridgeRequest in *. now rewrite Ho.
  - intros host.
    rewrite (chatHandler_steps host
               (JObj [("messages", JArr (map (fun c => JObj [("content", c)]) contents))])
               (JArr (map (fun c => JObj [("content", c)]) contents))
               JUndefined (JObj []) eq_refl eq_refl).
    cbn [selectorOf truthy elements].
    rewrite mapM_content_wrapped. reflexivity.
Qed.

Lemma bridge_request_has_no_selector_witness :
  exists (messages : value) (contents : list value),
    get Samples.streamingRequest "messages" = Ok messages /\
    (nullish messages = true \/ isArray messages = true) /\
    mapM normalizeContent (elements messages) = Ok contents /\
    List.length contents = List.length (elements messages) /\
    JObj [("messages", JArr [JObj [("content", JStr "2+2?")]])] =
    JObj [("messages", JArr (map (fun c => JObj [("content", c)]) contents))] /\
    get (JObj [("messages", JArr [JObj [("content", JStr "2+2?")]])]) "model" =
    Ok JUndefined /\
    (forall other : value,
        get other "messages" = get Samples.streamingRequest "messages" ->
        buildBridgeRequest other =
        Ok (JObj [("messages", JArr [JObj [("content", JStr "2+2?")]])])) /\
    (forall host : Host,
        chatHandler host (JObj [("messages", JArr [JObj [("content", JStr "2+2?")]])]) =
        match selectChatModels host None with
        | Throw e => (reply500 e, [CallSelectChatModels None])
        | Ok [] => (reply404, [CallSelectChatModels None])
        | Ok (model :: _) =>
            let trace := [CallSelectChatModels None;
                          CallSendRequest model contents (JObj [])] in
            match sendRequest host model contents (JObj []) with
            | Throw e => (reply500 e, trace)
            | Ok response =>
                match drain response with
                | Throw e => (reply500 e, trace)
                | Ok fullResponse => (reply200 fullResponse model, trace)
                end
            end
        end).
Proof.
  exact (bridge_request_has_no_selector
           Samples.streamingRequest
           (JObj [("messages", JArr [JObj [("content", JStr "2+2?")]])])
           eq_refl).
Defined.

End NoSelector.

(* ================================================================== *)
(** * Properties of the reply transformation                           *)
(* ================================================================== *)

Section Coercion.
Import Js Adapter.
Local Open Scope exc_scope.

Variable StringToNumber : string -> float.
Variable NumberToString : float -> string.

(** ToString returns on every convertible value. *)
Lemma ToString_convertible :
  forall v : value,
    convertible v = true -> exists s, ToString NumberToString v = Ok s.
Proof.
  fix IH 1.
  intros [ | |b|x|s|items|fields]; cbn [ToString convertible]; intros H;
    try (eexists; reflexivity).
  - induction items as [|x rest IHrest]; [eexists; reflexivity|].
    cbn [forallb] in H. apply andb_true_iff in H as [Hx Hrest].
    destruct (IHrest Hrest) as [r Hr].
    assert (Hs : exists s, (if nullish x then Ok "" else ToString NumberToString x) = Ok s).
    { destruct (nullish x); [eexists; reflexivity | apply IH, Hx]. }
    destruct Hs as [s Hs]. rewrite Hs. cbn [bind].
    destruct rest as [|y rest']; [eexists; reflexivity|].
    rewrite Hr. eexists; reflexivity.
  - rewrite negb_true_iff in H. rewrite H. eexists; reflexivity.
Qed.

(** So does [Number(v)]. *)
Lemma ToNumber_convertible (v : value) :
  convertible v = true ->
  exists x, ToNumber StringToNumber NumberToString v = Ok x.
Proof.
  intros H. destruct v; try (eexists; reflexivity);
    destruct (ToString_convertible _ H) as [s Hs];
    unfold ToNumber; rewrite Hs; eexists; reflexivity.
Qed.

(** The counter expression, in terms of the value read and its
    conversion. *)
Lemma usageCounter_eq (result resultModel counter : value) (field : string) (x : float) :
  get result "model" = Ok resultModel ->
  get_opt resultModel field = Ok counter ->
  ToNumber StringToNumber NumberToString counter = Ok x ->
  usageCounter StringToNumber NumberToString result field =
  Ok (if truthy counter && negb (isNaN x) then x else 0%float).
Proof.
  intros Hm Hc Hx. unfold usageCounter.
  rewrite Hm. cbn [bind]. rewrite Hc. cbn [bind].
  destruct (truthy counter); [|reflexivity].
  rewrite Hx. cbn [bind andb].
  destruct (isNaN x); reflexivity.
Qed.

End Coercion.

Section CoercionExamples.
Import Js Adapter.

(** C7, as stated, fails on a counter that is an object with a
    [toString] property of its own: [Number] throws on it, and so does the
    adapter, for a streaming request and for a plain one, whatever the
    engine's numeric conversions are. *)
Lemma usage_counter_may_throw :
  (forall S2N N2S,
      usageCounter S2N N2S Samples.oddCounterResult "promptTokens" =
      Throw (TypeError "Cannot convert object to primitive value")) /\
  (forall S2N N2S now,
      fetch S2N N2S Samples.oddCounterBridge now "o1" Samples.streamingRequest =
      Throws 500 (Some "Cannot convert object to primitive value")) /\
  (forall S2N N2S now,
      fetch S2N N2S Samples.oddCounterBridge now "o1" Samples.plainRequest =
      Throws 500 (Some "Cannot convert object to primitive value")).
Proof. repeat split. Qed.

End CoercionExamples.

Section ErrorPropagation.
Import Js Adapter.
Local Open Scope exc_scope.

Variable StringToNumber : string -> float.
Variable NumberToString : float -> string.

(** C8, as the adapter does it: a reply outside 2xx, and a 2xx reply with
    a falsy [success], each end the call with one thrown [Response] of
    status 500, whatever the status of the bridge's reply was.  For a
    reply outside 2xx its message is "VS Code LLM Bridge error: " and the
    HTTP status text; for a falsy [success] it is "VS Code LLM error: "
    and the bridge's error string. *)
Theorem fetch_raises_one_generic_error :
  forall (bridge : Transport) (now : nat -> Z) (modelNameOption : string)
         (body s request : value) (reply : HttpReply),
    get body "stream" = Ok s ->
    buildBridgeRequest body = Ok request ->
    bridge request = Ok reply ->
    (ok reply = false ->
     fetch StringToNumber NumberToString bridge now modelNameOption body =
     Throws 500 (Some ("VS Code LLM Bridge error: " ++ http_statusText reply))) /\
    (ok reply = true ->
     forall (result success : value) (e : string),
       http_json reply = Some result ->
       get result "success" = Ok success ->
       truthy success = false ->
       get result "error" = Ok (JStr e) ->
       fetch StringToNumber NumberToString bridge now modelNameOption body =
       Throws 500 (Some ("VS Code LLM error: " ++ e))).
Proof.
  intros bridge now modelNameOption body s request reply Hs Hreq Hreply.
  unfold fetch, fetchTry, callBridge.
  rewrite Hs, Hreq. cbn [bind]. rewrite Hreply. cbn [bind].
  split.
  - intros ->. reflexivity.
  - intros -> result success e Hj Hsucc Hf He.
    rewrite Hj. cbn [negb bind]. rewrite Hsucc. cbn [bind].
    rewrite Hf, He. reflexivity.
Qed.

End ErrorPropagation.

Section ErrorPropagationExamples.
Import Js Adapter.

Lemma fetch_raises_one_generic_error_witness :
  fetch (fun _ => nan) (fun _ => "") Samples.softFailureBridge Samples.clock "o1"
        Samples.plainRequest =
  Throws 500 (Some "VS Code LLM error: quota exceeded").
Proof.
  apply (proj2 (fetch_raises_one_generic_error (fun _ => nan) (fun _ => "")
                  Samples.softFailureBridge Samples.clock "o1" Samples.plainRequest
                  JUndefined _ _ eq_refl eq_refl eq_refl)
               eq_refl _ (JBool false) "quota exceeded" eq_refl eq_refl eq_refl eq_refl).
Defined.

(** C8, as stated, fails in front of this bridge: without models the
    bridge answers 404 with the error "No language models available", and
    what the adapter throws says "Not Found", the status text, without the
    bridge's error string in it. *)
Lemma fetch_drops_bridge_error_string :
  Bridge.chatHandler Samples.emptyHost
    (JObj [("messages", JArr [JObj [("content", JStr "2+2?")]])]) =
  (Bridge.reply404, [Bridge.CallSelectChatModels None]) /\
  Bridge.replyError Bridge.reply404 = Some "No language models available" /\
  (forall S2N N2S now,
      fetch S2N N2S (throughBridge Samples.emptyHost) now "o1" Samples.streamingRequest =
      Throws 500 (Some "VS Code LLM Bridge error: Not Found")) /\
  includes "No language models available" "VS Code LLM Bridge error: Not Found" = false.
Proof. repeat split. Qed.

End ErrorPropagationExamples.

Section Streaming.
Import Js Adapter.
Local Open Scope exc_scope.
Local Open Scope Z_scope.

Variable StringToNumber : string -> float.
Variable NumberToString : float -> string.

(** Where one property can be read, any can. *)
Lemma get_defined (o v : value) (k k' : string) :
  get o k = Ok v -> exists v', get o k' = Ok v'.
Proof. destruct o; simpl; intros H; try discriminate H; eauto. Qed.

Lemma get_opt_defined (o : value) (k : string) : exists v, get_opt o k = Ok v.
Proof. unfold get_opt, get. destruct o; cbn [nullish]; eauto. Qed.

Lemma modelOf_defined (result v : value) (k modelNameOption : string) :
  get result k = Ok v -> exists m, modelOf result modelNameOption = Ok m.
Proof.
  intros H. unfold modelOf.
  destruct (get_defined _ _ _ "model" H) as [resultModel ->]. cbn [bind].
  destruct (get_opt_defined resultModel "id") as [i ->]. cbn [bind].
  eexists; reflexivity.
Qed.

(** The events synthesized from a result with response string R and
    coerced usage u. *)
Lemma synthesizeStream_events (now : nat -> Z) (modelNameOption : string)
  (result : value) (R : string) (u : Usage) :
  get result "response" = Ok (JStr R) ->
  usageOf StringToNumber NumberToString result = Ok u ->
  exists c1 c2,
    synthesizeStream StringToNumber NumberToString now modelNameOption result =
    Ok [Data c1; Data c2; Done] /\
    chunk_choices c1 = [mkChunkChoice 0 (mkDelta (Some (JStr R))) None] /\
    chunk_usage c1 = None /\
    chunk_choices c2 = [mkChunkChoice 0 (mkDelta None) (Some "stop")] /\
    chunk_usage c2 = Some u.
Proof.
  intros Hr Hu. unfold synthesizeStream, responseOf.
  destruct (modelOf_defined _ _ _ modelNameOption Hr) as [m ->].
  rewrite Hr, Hu. cbn [bind]. rewrite or_else_string.
  eexists _, _. repeat split.
Qed.

(** What the bridge of this repository answers with on success, as the
    adapter reads it. *)
Lemma reply200_read (R : string) (m : Bridge.Model) :
  get (Bridge.json (Bridge.reply200 R m)) "success" = Ok (JBool true) /\
  get (Bridge.json (Bridge.reply200 R m)) "response" = Ok (JStr R) /\
  usageOf StringToNumber NumberToString (Bridge.json (Bridge.reply200 R m)) =
  Ok (mkUsage 0 0 0).
Proof. repeat split. Qed.

(** C1: a request with [stream: true] that the bridge answers
    successfully with the response string R gets a stream of exactly
    three events: a chunk whose delta holds all of R, a chunk with an
    empty delta, the finish reason "stop" and the coerced usage, and the
    closing [DONE]; the contents of the deltas concatenate to R.  This
    for every successful result whose usage counters coerce, and, in
    front of the bridge of this repository, for every request it answers
    with a 200 (the totals are then 0). *)
Theorem stream_is_three_events :
  (forall (bridge : Transport) (now : nat -> Z) (modelNameOption : string)
          (body result : value) (R : string) (u : Usage),
      get body "stream" = Ok (JBool true) ->
      callBridge NumberToString bridge body = Ok result ->
      get result "response" = Ok (JStr R) ->
      usageOf StringToNumber NumberToString result = Ok u ->
      exists c1 c2,
        fetch StringToNumber NumberToString bridge now modelNameOption body =
        Returns (EventStream [Data c1; Data c2; Done]) /\
        chunk_choices c1 = [mkChunkChoice 0 (mkDelta (Some (JStr R))) None] /\
        chunk_usage c1 = None /\
        chunk_choices c2 = [mkChunkChoice 0 (mkDelta None) (Some "stop")] /\
        chunk_usage c2 = Some u /\
        deltaContents [Data c1; Data c2; Done] = [JStr R] /\
        concatText (deltaContents [Data c1; Data c2; Done]) = R) /\
  (forall (host : Bridge.Host) (now : nat -> Z) (modelNameOption : string)
          (body request : value) (R : string) (m : Bridge.Model),
      get body "stream" = Ok (JBool true) ->
      buildBridgeRequest body = Ok request ->
      fst (Bridge.chatHandler host request) = Bridge.reply200 R m ->
      exists c1 c2,
        fetch StringToNumber NumberToString (throughBridge host) now modelNameOption body =
        Returns (EventStream [Data c1; Data c2; Done]) /\
        chunk_choices c1 = [mkChunkChoice 0 (mkDelta (Some (JStr R))) None] /\
        chunk_usage c1 = None /\
        chunk_choices c2 = [mkChunkChoice 0 (mkDelta None) (Some "stop")] /\
        chunk_usage c2 = Some (mkUsage 0 0 0) /\
        deltaContents [Data c1; Data c2; Done] = [JStr R] /\
        concatText (deltaContents [Data c1; Data c2; Done]) = R).
Proof.
  assert (General :
    forall bridge now modelNameOption body result R u,
      get body "stream" = Ok (JBool true) ->
      callBridge NumberToString bridge body = Ok result ->
      get result "response" = Ok (JStr R) ->
      usageOf StringToNumber NumberToString result = Ok u ->
      exists c1 c2,
        fetch StringToNumber NumberToString bridge now modelNameOption body =
        Returns (EventStream [Data c1; Data c2; Done]) /\
        chunk_choices c1 = [mkChunkChoice 0 (mkDelta (Some (JStr R))) None] /\
        chunk_usage c1 = None /\
        chunk_choices c2 = [mkChunkChoice 0 (mkDelta None) (Some "stop")] /\
        chunk_usage c2 = Some u /\
        deltaContents [Data c1; Data c2; Done] = [JStr R] /\
        concatText (deltaContents [Data c1; Data c2; Done]) = R).
  { intros bridge now modelNameOption body result R u Hs Hcall Hr Hu.
    destruct (synthesizeStream_events now modelNameOption result R u Hr Hu)
      as (c1 & c2 & Hev & Hc1 & Hu1 & Hc2 & Hu2).
    exists c1, c2. unfold fetch, fetchTry.
    rewrite Hs. cbn [bind strict_eq_true]. rewrite Hcall. cbn [bind].
    rewrite Hev. cbn [bind].
    repeat split; try assumption.
    - unfold deltaContents. cbn [flat_map]. rewrite Hc1, Hc2. reflexivity.
    - unfold deltaContents. cbn [flat_map]. rewrite Hc1, Hc2. cbn.
      clear. induction R as [|a R IH]; simpl; [reflexivity | now rewrite IH]. }
  split; [exact General|].
  intros host now modelNameOption body request R m Hs Hreq Hreply.
  destruct (reply200_read R m) as (Hsucc & Hresp & Husage).
  apply General with (result := Bridge.json (Bridge.reply200 R m)); try assumption.
  unfold callBridge, throughBridge. rewrite Hreq. cbn [bind].
  destruct (Bridge.chatHandler host request) as [reply trace].
  cbn [fst] in Hreply. subst reply. reflexivity.
Qed.

End Streaming.

Section StreamingExamples.
Import Js Adapter.
Local Open Scope Z_scope.

Lemma stream_is_three_events_witness :
  exists c1 c2,
    fetch (fun _ => nan) (fun _ => "") (throughBridge Samples.answeringHost)
          Samples.clock "o1" Samples.streamingRequest =
    Returns (EventStream [Data c1; Data c2; Done]) /\
    chunk_choices c1 = [mkChunkChoice 0 (mkDelta (Some (JStr "4"))) None] /\
    chunk_usage c1 = None /\
    chunk_choices c2 = [mkChunkChoice 0 (mkDelta None) (Some "stop")] /\
    chunk_usage c2 = Some (mkUsage 0 0 0) /\
    deltaContents [Data c1; Data c2; Done] = [JStr "4"] /\
    concatText (deltaContents [Data c1; Data c2; Done]) = "4".
Proof.
  apply (proj1 (stream_is_three_events (fun _ => nan) (fun _ => ""))
               (throughBridge Samples.answeringHost) Samples.clock "o1"
               Samples.streamingRequest
               (Bridge.json (Bridge.reply200 "4" Samples.gpt4o)) "4" (mkUsage 0 0 0)
               eq_refl eq_refl eq_refl eq_refl).
Defined.

End StreamingExamples.

Section UsageTotals.
Import Js Adapter UsageReport.
Local Open Scope exc_scope.
Local Open Scope Z_scope.

Variable StringToNumber : string -> float.
Variable NumberToString : float -> string.

(** One counter of the answer, from the field it is read from. *)
Lemma usageCounter_reports (result resultModel counter : value) (field : string) :
  get result "model" = Ok resultModel ->
  get_opt resultModel field = Ok counter ->
  convertible counter = true ->
  exists n,
    usageCounter StringToNumber NumberToString result field = Ok n /\
    reports StringToNumber NumberToString counter n.
Proof.
  intros Hm Hc Hconv.
  destruct (ToNumber_convertible StringToNumber NumberToString _ Hconv) as [x Hx].
  eexists. split; [exact (usageCounter_eq _ _ _ _ _ _ _ Hm Hc Hx)|].
  exists x. split; [exact Hx|]. repeat split.
  - destruct (truthy counter), (isNaN x) eqn:E; simpl; try reflexivity. exact E.
  - intros ->. reflexivity.
  - intros ->. reflexivity.
  - intros ->. now rewrite andb_false_r.
  - intros -> ->. reflexivity.
Qed.

(** C7, as the adapter does it.  Take a reply of the bridge whose
    [promptTokens], [completionTokens] and [totalTokens] (read off
    [result.model], [undefined] where missing) each convert to a primitive
    (every JSON primitive does, and every object or array that brings no
    [toString] property of its own).  Then the three conversions return
    and [prompt_tokens], [completion_tokens] and [total_tokens] of the
    answer are each the number of the field of the same name: never NaN, 0
    when the field is missing or its conversion is NaN, the converted
    number otherwise.  The plain completion carries these three numbers,
    the final chunk of the stream carries the same three and the first
    chunk none; so does the [fetch] override end, whichever way the
    request asks.  For the replies of the bridge of this repository, which
    never have such fields, the three numbers are 0. *)
Theorem usage_counter_coerced :
  (forall (result resultModel p c t : value),
      get result "model" = Ok resultModel ->
      get_opt resultModel "promptTokens" = Ok p ->
      get_opt resultModel "completionTokens" = Ok c ->
      get_opt resultModel "totalTokens" = Ok t ->
      convertible p = true ->
      convertible c = true ->
      convertible t = true ->
      exists u : Usage,
        usageOf StringToNumber NumberToString result = Ok u /\
        reports StringToNumber NumberToString p (prompt_tokens u) /\
        reports StringToNumber NumberToString c (completion_tokens u) /\
        reports StringToNumber NumberToString t (total_tokens u) /\
        (forall modelNameOption,
            exists completion,
              completionOf StringToNumber NumberToString modelNameOption result =
              Ok completion /\
              usage completion = u) /\
        (forall now modelNameOption,
            exists c1 c2,
              synthesizeStream StringToNumber NumberToString now modelNameOption result =
              Ok [Data c1; Data c2; Done] /\
              chunk_usage c1 = None /\
              chunk_usage c2 = Some u) /\
        (forall (bridge : Transport) now modelNameOption (body s : value),
            get body "stream" = Ok s ->
            callBridge NumberToString bridge body = Ok result ->
            if strict_eq_true s
            then exists c1 c2,
                fetch StringToNumber NumberToString bridge now modelNameOption body =
                Returns (EventStream [Data c1; Data c2; Done]) /\
                chunk_usage c1 = None /\
                chunk_usage c2 = Some u
            else exists completion,
                fetch StringToNumber NumberToString bridge now modelNameOption body =
                Returns (Json completion) /\
                usage completion = u)) /\
  (forall (R : string) (m : Bridge.Model),
      usageOf StringToNumber NumberToString (Bridge.json (Bridge.reply200 R m)) =
      Ok (mkUsage 0 0 0)).
Proof.
  split; [|intros R m; reflexivity].
  intros result resultModel p c t Hm Hp Hc Ht Cp Cc Ct.
  destruct (usageCounter_reports _ _ _ _ Hm Hp Cp) as (np & Ep & Rp).
  destruct (usageCounter_reports _ _ _ _ Hm Hc Cc) as (nc & Ec & Rc).
  destruct (usageCounter_reports _ _ _ _ Hm Ht Ct) as (nt & Et & Rt).
  assert (Hu : usageOf StringToNumber NumberToString result = Ok (mkUsage np nc nt)).
  { unfold usageOf. rewrite Ep, Ec, Et. reflexivity. }
  destruct (get_defined _ _ _ "response" Hm) as [r Hr].
  assert (Hcompletion : forall modelNameOption,
    exists completion,
      completionOf StringToNumber NumberToString modelNameOption result = Ok completion /\
      usage completion = mkUsage np nc nt).
  { intros modelNameOption. unfold completionOf, responseOf.
    destruct (modelOf_defined _ _ _ modelNameOption Hm) as [m ->].
    rewrite Hr, Hu. cbn [bind]. eexists. split; reflexivity. }
  assert (Hstream : forall now modelNameOption,
    exists c1 c2,
      synthesizeStream StringToNumber NumberToString now modelNameOption result =
      Ok [Data c1; Data c2; Done] /\
      chunk_usage c1 = None /\
      chunk_usage c2 = Some (mkUsage np nc nt)).
  { intros now modelNameOption. unfold synthesizeStream, responseOf.
    destruct (modelOf_defined _ _ _ modelNameOption Hm) as [m ->].
    rewrite Hr, Hu. cbn [bind]. eexists _, _. repeat split. }
  exists (mkUsage np nc nt).
  split; [exact Hu|]. split; [exact Rp|]. split; [exact Rc|]. split; [exact Rt|].
  split; [exact Hcompletion|]. split; [exact Hstream|].
  intros bridge now modelNameOption body s Hs Hcall.
  unfold fetch, fetchTry. rewrite Hs. cbn [bind]. rewrite Hcall. cbn [bind].
  destruct (strict_eq_true s).
  - destruct (Hstream now modelNameOption) as (c1 & c2 & -> & H1 & H2).
    exists c1, c2. cbn [bind]. now repeat split.
  - destruct (Hcompletion modelNameOption) as (completion & -> & H).
    exists completion. cbn [bind]. now split.
Qed.

End UsageTotals.

Section UsageTotalsExamples.
Import Js Adapter UsageReport.
Local Open Scope Z_scope.

Lemma usage_counter_coerced_witness :
  usageOf (fun _ => nan) (fun _ => "") countedResult = Ok (mkUsage 12 0 0) /\
  exists u : Usage,
    usageOf (fun _ => nan) (fun _ => "") countedResult = Ok u /\
    reports (fun _ => nan) (fun _ => "") (JNum 12%float) (prompt_tokens u) /\
    reports (fun _ => nan) (fun _ => "") JUndefined (completion_tokens u) /\
    reports (fun _ => nan) (fun _ => "") (JStr "n/a") (total_tokens u) /\
    (forall modelNameOption,
        exists completion,
          completionOf (fun _ => nan) (fun _ => "") modelNameOption countedResult =
          Ok completion /\
          usage completion = u) /\
    (forall now modelNameOption,
        exists c1 c2,
          synthesizeStream (fun _ => nan) (fun _ => "") now modelNameOption countedResult =
          Ok [Data c1; Data c2; Done] /\
          chunk_usage c1 = None /\
          chunk_usage c2 = Some u) /\
    (forall (bridge : Transport) now modelNameOption (body s : value),
        get body "stream" = Ok s ->
        callBridge (fun _ => "") bridge body = Ok countedResult ->
        if strict_eq_true s
        then exists c1 c2,
            fetch (fun _ => nan) (fun _ => "") bridge now modelNameOption body =
            Returns (EventStream [Data c1; Data c2; Done]) /\
            chunk_usage c1 = None /\
            chunk_usage c2 = Some u
        else exists completion,
            fetch (fun _ => nan) (fun _ => "") bridge now modelNameOption body =
            Returns (Json completion) /\
            usage completion = u).
Proof.
  split; [reflexivity|].
  exact (proj1 (usage_counter_coerced (fun _ => nan) (fun _ => ""))
               countedResult
               (JObj [("id", JStr "gpt-4o"); ("promptTokens", JNum 12%float);
                      ("totalTokens", JStr "n/a")])
               (JNum 12%float) JUndefined (JStr "n/a")
               eq_refl eq_refl eq_refl eq_refl eq_refl eq_refl eq_refl).
Defined.

End UsageTotalsExamples.

(* ================================================================== *)
(** * More on [POST /api/chat] and [GET /api/models]                   *)
(* ================================================================== *)

Section ChatRunsFacts.
Import Js Bridge Extension ChatRuns.
Local Open Scope Z_scope.

Lemma append_empty_r (s : string) : s ++ "" = s.
Proof. induction s as [|c s IH]; simpl; [reflexivity | now rewrite IH]. Qed.

Lemma append_assoc (a b c : string) : (a ++ b) ++ c = a ++ (b ++ c).
Proof. induction a as [|x a IH]; simpl; [reflexivity | now rewrite IH]. Qed.

Lemma collect_joinTexts (parts : list StreamPart) (acc : string) :
  collect parts acc = acc ++ joinTexts (texts parts).
Proof.
  revert acc. induction parts as [|[text|] parts IH]; intros acc; simpl.
  - now rewrite append_empty_r.
  - rewrite IH. unfold joinTexts. simpl. now rewrite append_assoc.
  - apply IH.
Qed.

(** X1: the response text is the text parts of the stream joined in the
    order they arrive, every other part skipped; a stream that fails
    gives no text at all, whatever arrived before the failure. *)
Theorem drain_joins_text_parts :
  forall response : ChatResponse,
    drain response =
    match stream_failure response with
    | Some e => Throw e
    | None => Ok (joinTexts (texts (stream response)))
    end.
Proof.
  intros response. unfold drain.
  destruct (stream_failure response); [reflexivity|].
  now rewrite collect_joinTexts.
Qed.

(** Every request goes one of the ways of [ChatRun]. *)
Lemma chatHandler_run (host : Host) (body : value) :
  ChatRun host (fst (chatHandler host body)) (snd (chatHandler host body)).
Proof.
  destruct (destructure body) as [[[messages requestedModel] options]|e] eqn:Hd.
  - destruct (isArray messages) eqn:Harr.
    + rewrite (chatHandler_steps host _ _ _ _ Hd Harr).
      destruct (selectorOf requestedModel) as [selector|e]; [|constructor].
      destruct (selectChatModels host selector) as [[|model rest]|e] eqn:Hsel;
        try (now constructor).
      destruct (mapM _ (elements messages)) as [chatMessages|e];
        [|now apply RunBadMessage with model rest].
      cbv zeta.
      destruct (sendRequest host model chatMessages options) as [response|e] eqn:Hsend;
        [|now apply RunRequestFails with rest].
      destruct (drain response) as [fullResponse|e] eqn:Hdrain.
      * now apply RunAnswered with rest response.
      * now apply RunRequestFails with rest.
    + unfold chatHandler, chatTry. rewrite Hd. cbn [lift hbind].
      rewrite Harr, orb_true_r. constructor.
  - unfold chatHandler, chatTry. rewrite Hd. constructor.
Qed.

Lemma reply500_facts (e : exn) :
  status (reply500 e) = 500 /\ replySuccess (reply500 e) = false.
Proof. destruct e as [[m|]]; split; reflexivity. Qed.

(** X2: whatever the request, the handler asks the host for models at
    most once and invokes at most one model, after the selection, and
    that model is the first one the selection returned. *)
Theorem chat_trace_shape :
  forall (host : Host) (body : value),
    let trace := snd (chatHandler host body) in
    trace = [] \/
    (exists selector, trace = [CallSelectChatModels selector]) \/
    (exists selector model rest chatMessages options,
        selectChatModels host selector = Ok (model :: rest) /\
        trace = [CallSelectChatModels selector;
                 CallSendRequest model chatMessages options]).
Proof.
  intros host body trace. subst trace.
  destruct (chatHandler_run host body); eauto 10.
Qed.

(** X3: the status is 200, 400, 404 or 500; [success] is [true] exactly
    in a 200; a 200 comes after exactly one model invocation, and a 400
    or a 404 without any. *)
Theorem chat_status_tells_success :
  forall (host : Host) (body : value),
    let reply := fst (chatHandler host body) in
    let trace := snd (chatHandler host body) in
    In (status reply) [200; 400; 404; 500] /\
    (replySuccess reply = true <-> status reply = 200) /\
    (status reply = 200 -> List.length (invoked trace) = 1%nat) /\
    (status reply = 400 \/ status reply = 404 -> invoked trace = []).
Proof.
  intros host body reply trace. subst reply trace.
  destruct (chatHandler_run host body);
    try (destruct (reply500_facts e) as [Hst Hsu]; rewrite Hst, Hsu);
    cbn; repeat split;
    try (intros [?|?]); try intro;
    first [reflexivity | discriminate | auto 6].
Qed.

End ChatRunsFacts.

Section MessageForwarding.
Import Js Bridge Extension Adapter.
Local Open Scope exc_scope.
Local Open Scope Z_scope.

(** Reading [content] off messages none of which is [null]. *)
Lemma mapM_content_defined (items : list value) :
  forallb (fun msg => negb (nullish msg)) items = true ->
  mapM (fun msg => get msg "content") items =
  Ok (map (fun msg => field msg "content") items).
Proof.
  induction items as [|msg items IH]; simpl; [reflexivity|].
  intros H. apply andb_true_iff in H as [Hm Hr].
  rewrite (IH Hr). unfold field.
  destruct msg; try discriminate Hm; reflexivity.
Qed.

Lemma mapM_content_null (items : list value) :
  existsb nullish items = true ->
  exists e, mapM (fun msg => get msg "content") items = Throw e.
Proof.
  induction items as [|msg items IH]; simpl; [discriminate 1|].
  intros H. apply orb_true_iff in H as [Hm|Hr].
  - destruct msg; try discriminate Hm; eexists; reflexivity.
  - destruct (IH Hr) as [e He]. rewrite He.
    destruct (get msg "content"); eexists; reflexivity.
Qed.

(** X4: every message of the request reaches the model, in order, as
    its [content] alone ([undefined] where there is none); roles and all
    other fields are dropped, [options] is passed on, and the model is
    the first one selected. *)
Theorem chat_forwards_every_message :
  forall (host : Host) (body requestedModel options : value) (items : list value)
         (selector : option Selector) (model : Model) (rest : list Model),
    destructure body = Ok (JArr items, requestedModel, options) ->
    forallb (fun msg => negb (nullish msg)) items = true ->
    selectorOf requestedModel = Ok selector ->
    selectChatModels host selector = Ok (model :: rest) ->
    snd (chatHandler host body) =
    [CallSelectChatModels selector;
     CallSendRequest model (map (fun msg => field msg "content") items) options].
Proof.
  intros host body requestedModel options items selector model rest Hd Hitems Hs Hsel.
  rewrite (chatHandler_steps host _ _ _ _ Hd eq_refl), Hs, Hsel.
  cbn [elements]. rewrite (mapM_content_defined _ Hitems). cbv zeta.
  destruct (sendRequest host model _ options) as [response|e]; [|reflexivity].
  destruct (drain response); reflexivity.
Qed.

Lemma chat_forwards_every_message_witness :
  snd (chatHandler Samples.answeringHost
         (JObj [("messages", JArr [JObj [("role", JStr "system"); ("content", JStr "a")];
                                   JObj [("role", JStr "user")]])])) =
  [CallSelectChatModels None;
   CallSendRequest Samples.gpt4o [JStr "a"; JUndefined] (JObj [])].
Proof.
  exact (chat_forwards_every_message Samples.answeringHost
           (JObj [("messages", JArr [JObj [("role", JStr "system"); ("content", JStr "a")];
                                     JObj [("role", JStr "user")]])])
           JUndefined (JObj [])
           [JObj [("role", JStr "system"); ("content", JStr "a")];
            JObj [("role", JStr "user")]]
           None Samples.gpt4o [Samples.claude] eq_refl eq_refl eq_refl eq_refl).
Defined.

(** X5: a [null] among the messages ends the request without any model
    being invoked: the reply is a 500, or the 404 when no model was
    selected in the first place. *)
Theorem chat_null_message_invokes_nothing :
  forall (host : Host) (body requestedModel options : value) (items : list value),
    destructure body = Ok (JArr items, requestedModel, options) ->
    existsb nullish items = true ->
    invoked (snd (chatHandler host body)) = [] /\
    (status (fst (chatHandler host body)) = 500 \/
     fst (chatHandler host body) = reply404).
Proof.
  intros host body requestedModel options items Hd Hnull.
  rewrite (chatHandler_steps host _ _ _ _ Hd eq_refl).
  destruct (selectorOf requestedModel) as [selector|e];
    [|split; [reflexivity | left; apply reply500_facts]].
  destruct (selectChatModels host selector) as [[|model rest]|e];
    [split; [reflexivity | now right] | |
     split; [reflexivity | left; apply reply500_facts]].
  cbn [elements]. destruct (mapM_content_null _ Hnull) as [e ->].
  split; [reflexivity | left; apply reply500_facts].
Qed.

Lemma chat_null_message_invokes_nothing_witness :
  invoked (snd (chatHandler Samples.answeringHost
                  (JObj [("messages", JArr [JObj [("content", JStr "a")]; JNull])]))) = [] /\
  (status (fst (chatHandler Samples.answeringHost
                  (JObj [("messages", JArr [JObj [("content", JStr "a")]; JNull])]))) = 500 \/
   fst (chatHandler Samples.answeringHost
          (JObj [("messages", JArr [JObj [("content", JStr "a")]; JNull])])) = reply404).
Proof.
  exact (chat_null_message_invokes_nothing Samples.answeringHost
           (JObj [("messages", JArr [JObj [("content", JStr "a")]; JNull])])
           JUndefined (JObj []) [JObj [("content", JStr "a")]; JNull] eq_refl eq_refl).
Defined.

Lemma buildBridgeRequest_without_messages (body messages : value) :
  get body "messages" = Ok messages ->
  nullish messages = true ->
  buildBridgeRequest body = Ok (JObj [("messages", JArr [])]).
Proof.
  intros Hm Hn. unfold buildBridgeRequest. rewrite Hm.
  destruct messages; try discriminate Hn; reflexivity.
Qed.

(** X6: the body posted to the bridge has one entry per message of the
    SDK's request, in order, each with the normalized content as its
    only property (the role is gone); a request without messages posts
    the empty list. *)
Theorem bridge_request_keeps_every_message :
  (forall (body request : value) (items : list value),
      get body "messages" = Ok (JArr items) ->
      buildBridgeRequest body = Ok request ->
      exists contents,
        mapM normalizeContent items = Ok contents /\
        request = JObj [("messages", JArr (map (fun c => JObj [("content", c)]) contents))] /\
        List.length contents = List.length items) /\
  (forall body messages : value,
      get body "messages" = Ok messages ->
      nullish messages = true ->
      buildBridgeRequest body = Ok (JObj [("messages", JArr [])])).
Proof.
  split.
  - intros body request items Hm. unfold buildBridgeRequest. rewrite Hm. cbn [bind].
    destruct (mapM _ items) as [l|e] eqn:Hl; [|discriminate 1].
    intros [= <-].
    destruct (mapM_wrap_content _ _ Hl) as (contents & Hc & ->).
    exists contents. repeat split; [assumption|].
    apply (mapM_length _ _ _ Hc).
  - apply buildBridgeRequest_without_messages.
Qed.

Lemma bridge_request_keeps_every_message_witness :
  buildBridgeRequest (JObj [("model", JStr "o1"); ("messages", JNull)]) =
  Ok (JObj [("messages", JArr [])]).
Proof.
  exact (proj2 bridge_request_keeps_every_message
           (JObj [("model", JStr "o1"); ("messages", JNull)]) JNull eq_refl eq_refl).
Defined.

(** X7: the bridge never rejects what the adapter posts as invalid: the
    posted [messages] is always an array, so the reply is never the 400;
    a request of the SDK without messages reaches the first model with
    an empty conversation. *)
Theorem adapter_request_passes_validation :
  (forall (body request : value) (host : Host),
      buildBridgeRequest body = Ok request ->
      status (fst (chatHandler host request)) <> 400) /\
  (forall (body messages : value) (host : Host) (model : Model) (rest : list Model),
      get body "messages" = Ok messages ->
      nullish messages = true ->
      selectChatModels host None = Ok (model :: rest) ->
      exists request,
        buildBridgeRequest body = Ok request /\
        snd (chatHandler host request) =
        [CallSelectChatModels None; CallSendRequest model [] (JObj [])]).
Proof.
  split.
  - intros body request host Hb.
    destruct (buildBridgeRequest_shape _ _ Hb) as [contents ->].
    rewrite (chatHandler_steps host (JObj [("messages", JArr contents)])
               (JArr contents) JUndefined (JObj []) eq_refl eq_refl).
    cbn [selectorOf truthy elements].
    destruct (selectChatModels host None) as [[|model rest]|e];
      try (destruct (reply500_facts e) as [-> _]); try (cbn; lia).
    destruct (mapM _ contents) as [chatMessages|e];
      try (destruct (reply500_facts e) as [-> _]); try (cbn; lia).
    cbv zeta.
    destruct (sendRequest host model chatMessages (JObj [])) as [response|e];
      try (destruct (reply500_facts e) as [-> _]); try (cbn; lia).
    destruct (drain response) as [text|e];
      try (destruct (reply500_facts e) as [-> _]); cbn; lia.
  - intros body messages host model rest Hm Hn Hsel.
    exists (JObj [("messages", JArr [])]).
    split; [now apply buildBridgeRequest_without_messages with messages|].
    rewrite (chatHandler_steps host (JObj [("messages", JArr [])])
               (JArr []) JUndefined (JObj []) eq_refl eq_refl).
    cbn [selectorOf truthy elements mapM]. rewrite Hsel. cbv zeta.
    destruct (sendRequest host model [] (JObj [])) as [response|e]; [|reflexivity].
    destruct (drain response); reflexivity.
Qed.

Lemma adapter_request_passes_validation_witness :
  exists request,
    buildBridgeRequest (JObj [("model", JStr "o1")]) = Ok request /\
    snd (chatHandler Samples.answeringHost request) =
    [CallSelectChatModels None; CallSendRequest Samples.gpt4o [] (JObj [])].
Proof.
  exact (proj2 adapter_request_passes_validation (JObj [("model", JStr "o1")]) JUndefined
           Samples.answeringHost Samples.gpt4o [Samples.claude] eq_refl eq_refl eq_refl).
Defined.

End MessageForwarding.

(* ================================================================== *)
(** * More on the [fetch] override                                     *)
(* ================================================================== *)

Section TwoPaths.
Import Js Adapter.
Local Open Scope exc_scope.
Local Open Scope Z_scope.

Variable StringToNumber : string -> float.
Variable NumberToString : float -> string.

(** What passes the check of the bridge's reply is an object one can
    read from. *)
Lemma callBridge_result_defined (bridge : Transport) (body result : value) :
  callBridge NumberToString bridge body = Ok result ->
  nullish result = false.
Proof.
  unfold callBridge.
  destruct (buildBridgeRequest body) as [request|e]; [|discriminate 1]. cbn [bind].
  destruct (bridge request) as [reply|e]; [|discriminate 1]. cbn [bind].
  destruct (negb (ok reply)); [discriminate 1|].
  destruct (http_json reply) as [v|]; [|discriminate 1]. cbn [bind].
  destruct (get v "success") as [success|e] eqn:Hs; [|discriminate 1]. cbn [bind].
  destruct (negb (truthy success)).
  - destruct (get v "error") as [error|e]; [|discriminate 1]. cbn [bind].
    destruct (ToString NumberToString error); discriminate 1.
  - intros [= <-]. destruct v; try discriminate Hs; reflexivity.
Qed.

Lemma get_of_defined (o : value) (k : string) :
  nullish o = false -> exists v, get o k = Ok v.
Proof. destruct o; try discriminate 1; intros _; eexists; reflexivity. Qed.

(** X8: for one and the same result of the bridge the two paths agree:
    either both fail, with the same error, or the stream's single delta
    content is the completion's message content, both chunks name the
    completion's model, and the final chunk carries the completion's
    usage. *)
Theorem stream_and_completion_agree :
  forall (bridge : Transport) (now : nat -> Z) (modelNameOption : string)
         (body result : value),
    callBridge NumberToString bridge body = Ok result ->
    match synthesizeStream StringToNumber NumberToString now modelNameOption result,
          completionOf StringToNumber NumberToString modelNameOption result with
    | Ok events, Ok completion =>
        exists c1 c2,
          events = [Data c1; Data c2; Done] /\
          deltaContents events =
          map (fun ch => content (choice_message ch)) (choices completion) /\
          chunk_model c1 = model completion /\
          chunk_model c2 = model completion /\
          chunk_usage c2 = Some (usage completion)
    | Throw e1, Throw e2 => e1 = e2
    | _, _ => False
    end.
Proof.
  intros bridge now modelNameOption body result Hcall.
  pose proof (callBridge_result_defined _ _ _ Hcall) as Hdef.
  unfold synthesizeStream, completionOf, modelOf, responseOf.
  destruct (get_of_defined result "model" Hdef) as [resultModel ->].
  destruct (get_of_defined result "response" Hdef) as [r ->]. cbn [bind].
  destruct (get_opt_defined resultModel "id") as [i ->]. cbn [bind].
  destruct (usageOf StringToNumber NumberToString result) as [u|e]; cbn [bind];
    [|reflexivity].
  eexists _, _. repeat split.
Qed.

(** X9: when the request cannot be built the bridge is not contacted:
    [messages] that is neither missing nor an array, and a [null] among
    the messages, each end the call with a thrown 500 that is the same
    whatever the bridge would have answered. *)
Theorem unbuildable_request_never_reaches_bridge :
  forall (now : nat -> Z) (modelNameOption : string) (body s messages : value),
    get body "stream" = Ok s ->
    get body "messages" = Ok messages ->
    (nullish messages = false /\ isArray messages = false) \/
    existsb nullish (Bridge.elements messages) = true ->
    exists text,
      forall bridge : Transport,
        fetch StringToNumber NumberToString bridge now modelNameOption body =
        Throws 500 text.
Proof.
  intros now modelNameOption body s messages Hs Hm Hbad.
  assert (Hbuild : exists e, buildBridgeRequest body = Throw e).
  { unfold buildBridgeRequest. rewrite Hm. cbn [bind].
    destruct Hbad as [[Hn Ha]|Hnull].
    - destruct messages; try discriminate Hn; try discriminate Ha;
        eexists; reflexivity.
    - destruct messages; try discriminate Hnull. cbn [Bridge.elements] in Hnull.
      assert (Hmap : exists e,
                 mapM (fun msg => c <- normalizeContent msg ;;
                                  Ok (json_object [("content", c)])) items = Throw e).
      { clear - Hnull. induction items as [|msg items IH]; [discriminate Hnull|].
        cbn [existsb] in Hnull. apply orb_true_iff in Hnull as [Hmsg|Hrest].
        - destruct msg; try discriminate Hmsg; eexists; reflexivity.
        - destruct (IH Hrest) as [e He]. cbn [mapM]. rewrite He.
          destruct (normalizeContent msg); eexists; reflexivity. }
      destruct Hmap as [e ->]. eexists; reflexivity. }
  destruct Hbuild as [e He]. exists (message e). intros bridge.
  unfold fetch, fetchTry, callBridge. rewrite Hs, He. reflexivity.
Qed.

(** X10: in front of this bridge the answer names the model the bridge
    used, not the one the SDK asked for: both chunks of a stream, and the
    plain completion, carry the id of the bridge's model (the requested
    name only when that id is empty). *)
Theorem answer_names_the_bridge_model :
  forall (host : Bridge.Host) (now : nat -> Z) (modelNameOption : string)
         (body s request : value) (R : string) (m : Bridge.Model),
    get body "stream" = Ok s ->
    buildBridgeRequest body = Ok request ->
    fst (Bridge.chatHandler host request) = Bridge.reply200 R m ->
    let reported :=
      if String.eqb (Bridge.model_id m) "" then JStr modelNameOption
      else JStr (Bridge.model_id m) in
    match fetch StringToNumber NumberToString (throughBridge host) now modelNameOption body with
    | Returns (EventStream [Data c1; Data c2; Done]) =>
        strict_eq_true s = true /\ chunk_model c1 = reported /\ chunk_model c2 = reported
    | Returns (Json completion) =>
        strict_eq_true s = false /\ model completion = reported
    | _ => False
    end.
Proof.
  intros host now modelNameOption body s request R m Hs Hreq Hreply reported.
  subst reported. unfold fetch, fetchTry, callBridge, throughBridge.
  rewrite Hs, Hreq. cbn [bind].
  destruct (Bridge.chatHandler host request) as [reply trace].
  cbn [fst] in Hreply. subst reply.
  destruct (strict_eq_true s);
    destruct (String.eqb (Bridge.model_id m) "") eqn:E;
    cbn; unfold or_else; cbn; rewrite E; cbn; repeat split.
Qed.

End TwoPaths.

Section TwoPathsExamples.
Import Js Adapter.
Local Open Scope Z_scope.

Lemma stream_and_completion_agree_witness :
  match synthesizeStream (fun _ => nan) (fun _ => "") Samples.clock "o1"
          (Bridge.json (Bridge.reply200 "4" Samples.gpt4o)),
        completionOf (fun _ => nan) (fun _ => "") "o1"
          (Bridge.json (Bridge.reply200 "4" Samples.gpt4o)) with
  | Ok events, Ok completion =>
      exists c1 c2,
        events = [Data c1; Data c2; Done] /\
        deltaContents events =
        map (fun ch => content (choice_message ch)) (choices completion) /\
        chunk_model c1 = model completion /\
        chunk_model c2 = model completion /\
        chunk_usage c2 = Some (usage completion)
  | Throw e1, Throw e2 => e1 = e2
  | _, _ => False
  end.
Proof.
  exact (stream_and_completion_agree (fun _ => nan) (fun _ => "")
           (throughBridge Samples.answeringHost) Samples.clock "o1"
           Samples.streamingRequest (Bridge.json (Bridge.reply200 "4" Samples.gpt4o))
           eq_refl).
Defined.

Lemma unbuildable_request_never_reaches_bridge_witness :
  exists text,
    forall bridge : Transport,
      fetch (fun _ => nan) (fun _ => "") bridge Samples.clock "o1"
            (JObj [("messages", JStr "2+2?")]) =
      Throws 500 text.
Proof.
  exact (unbuildable_request_never_reaches_bridge (fun _ => nan) (fun _ => "")
           Samples.clock "o1" (JObj [("messages", JStr "2+2?")]) JUndefined (JStr "2+2?")
           eq_refl eq_refl (or_introl (conj eq_refl eq_refl))).
Defined.

Lemma answer_names_the_bridge_model_witness :
  match fetch (fun _ => nan) (fun _ => "") (throughBridge Samples.answeringHost)
          Samples.clock "o1" Samples.streamingRequest with
  | Returns (EventStream [Data c1; Data c2; Done]) =>
      strict_eq_true (JBool true) = true /\
      chunk_model c1 = JStr "gpt-4o" /\ chunk_model c2 = JStr "gpt-4o"
  | Returns (Json completion) =>
      strict_eq_true (JBool true) = false /\ model completion = JStr "gpt-4o"
  | _ => False
  end.
Proof.
  exact (answer_names_the_bridge_model (fun _ => nan) (fun _ => "")
           Samples.answeringHost Samples.clock "o1" Samples.streamingRequest (JBool true)
           (JObj [("messages", JArr [JObj [("content", JStr "2+2?")]])])
           "4" Samples.gpt4o eq_refl eq_refl eq_refl).
Defined.

End TwoPathsExamples.

(* ================================================================== *)
(** * The first version of the override                                *)
(* ================================================================== *)

Section FirstVersion.
Import Js Bridge Adapter Provider.
Local Open Scope exc_scope.

Lemma prefix_hyphen (c : ascii) (s : string) :
  prefix "-" (String c s) = Ascii.eqb c "-"%char.
Proof.
  cbn [prefix]. destruct (ascii_dec "-"%char c) as [<-|Hne].
  - rewrite Ascii.eqb_refl. destruct s; reflexivity.
  - symmetry. apply Ascii.eqb_neq. congruence.
Qed.

(** X11: [model.split('-')[0]] is the text of the model name before its
    first hyphen: it holds no hyphen, and the name is that text, followed
    by nothing or by a hyphen and the rest. *)
Theorem familyOf_is_text_before_hyphen :
  forall modelName : string,
    includes "-" (familyOf modelName) = false /\
    exists rest,
      modelName = familyOf modelName ++ rest /\
      (rest = "" \/ exists r, rest = String "-"%char r).
Proof.
  intros modelName.
  induction modelName as [|c modelName IH];
    [|destruct IH as [IHno (rest & IHeq & IHrest)]].
  - split; [reflexivity|]. exists "". split; [reflexivity | now left].
  - cbn [familyOf]. destruct (Ascii.eqb c "-"%char) eqn:E.
    + split; [reflexivity|]. apply Ascii.eqb_eq in E. subst c.
      exists (String "-"%char modelName). split; [reflexivity | right; now eexists].
    + split.
      * cbn [includes]. rewrite prefix_hyphen, E. exact IHno.
      * exists rest. split; [|exact IHrest].
        cbn [append]. now rewrite <- IHeq.
Qed.

Lemma buildBridgeRequestV1_shape (model : string) (body request : value) :
  buildBridgeRequestV1 model body = Ok request ->
  exists contents,
    request = JObj [("messages", JArr contents);
                    ("model", JObj [("id", JStr model); ("vendor", JStr "copilot");
                                    ("family", JStr (familyOf model))]);
                    ("options", JObj [])].
Proof.
  unfold buildBridgeRequestV1.
  destruct (get body "messages") as [messages|e]; [|discriminate 1]. cbn [bind].
  destruct messages as [ | | | | |items| ]; try discriminate 1;
    try (intros [= <-]; now exists []).
  destruct (mapM _ items) as [l|e]; [|discriminate 1].
  intros [= <-]. now exists l.
Qed.

(** X12: the first version posts a selector made from the model name
    (the name as id, the vendor "copilot", the text before the first
    hyphen as family), so the bridge selects with it; when the host lists
    no model for that selector the call fails with "Not Found", whatever
    other models the host has. *)
Theorem v1_request_selects_by_name :
  forall (model : string) (body request : value) (host : Host),
    buildBridgeRequestV1 model body = Ok request ->
    let selector :=
      Some (mkSelector (JStr model) (JStr "copilot") (JStr (familyOf model))) in
    (exists rest, snd (chatHandler host request) = CallSelectChatModels selector :: rest) /\
    (selectChatModels host selector = Ok [] ->
     forall NumberToString,
       fetchV1 NumberToString (throughBridge host) model body =
       Throw (Error "VS Code LLM Bridge error: Not Found")).
Proof.
  intros model body request host Hb selector.
  destruct (buildBridgeRequestV1_shape _ _ _ Hb) as [contents ->].
  pose proof (chatHandler_steps host
                (JObj [("messages", JArr contents);
                       ("model", JObj [("id", JStr model); ("vendor", JStr "copilot");
                                       ("family", JStr (familyOf model))]);
                       ("options", JObj [])])
                (JArr contents)
                (JObj [("id", JStr model); ("vendor", JStr "copilot");
                       ("family", JStr (familyOf model))])
                (JObj []) eq_refl eq_refl) as Hsteps.
  cbn [selectorOf truthy get own String.eqb Ascii.eqb Bool.eqb bind elements] in Hsteps.
  fold selector in Hsteps.
  split.
  - rewrite Hsteps.
    destruct (selectChatModels host selector) as [[|m rest]|e]; try (now eexists).
    destruct (mapM _ contents) as [chatMessages|e]; [|now eexists].
    cbv zeta.
    destruct (sendRequest host m chatMessages (JObj [])) as [response|e]; [|now eexists].
    destruct (drain response); now eexists.
  - intros Hsel NumberToString. rewrite Hsel in Hsteps.
    unfold fetchV1, throughBridge. rewrite Hb. cbn [bind].
    rewrite Hsteps. reflexivity.
Qed.

Lemma v1_request_selects_by_name_witness :
  exists rest,
    snd (chatHandler Samples.answeringHost
           (JObj [("messages", JArr [JObj [("content", JStr "2+2?")]]);
                  ("model", JObj [("id", JStr "gpt-4o"); ("vendor", JStr "copilot");
                                  ("family", JStr "gpt")]);
                  ("options", JObj [])])) =
    CallSelectChatModels
      (Some (mkSelector (JStr "gpt-4o") (JStr "copilot") (JStr "gpt"))) :: rest.
Proof.
  exact (proj1 (v1_request_selects_by_name "gpt-4o" Samples.plainRequest
                  (JObj [("messages", JArr [JObj [("content", JStr "2+2?")]]);
                         ("model", JObj [("id", JStr "gpt-4o"); ("vendor", JStr "copilot");
                                         ("family", JStr "gpt")]);
                         ("options", JObj [])])
                  Samples.answeringHost eq_refl)).
Defined.

(** X13: in the first version a reply that passes the success check
    always becomes a completion: one choice with the response text (the
    empty string when there is none), the role "assistant" and the finish
    reason "stop", and a usage of zeros, whatever counters the reply
    holds. *)
Theorem v1_success_always_completes :
  forall (NumberToString : float -> string) (bridge : Transport) (model : string)
         (body request result success : value) (reply : HttpReply),
    buildBridgeRequestV1 model body = Ok request ->
    bridge request = Ok reply ->
    ok reply = true ->
    http_json reply = Some result ->
    get result "success" = Ok success ->
    truthy success = true ->
    exists text m,
      responseOf result = Ok text /\
      modelOf result model = Ok m /\
      fetchV1 NumberToString bridge model body =
      Ok (mkCompletionV1 [mkChoiceV1 (mkChatMessage text "assistant") "stop"] m
                         (mkUsage 0 0 0)).
Proof.
  intros NumberToString bridge model body request result success reply
         Hb Hreply Hok Hjson Hs Ht.
  destruct (modelOf_defined result success "success" model Hs) as [m Hm].
  destruct (get_defined result success "success" "response" Hs) as [r Hr].
  exists (or_else r (JStr "")), m.
  unfold fetchV1, jsonOf, responseOf.
  rewrite Hb. cbn [bind]. rewrite Hreply. cbn [bind]. rewrite Hok, Hjson. cbn [negb bind].
  rewrite Hs. cbn [bind]. rewrite Ht, Hr. cbn [negb bind]. rewrite Hm.
  repeat split.
Qed.

Lemma v1_success_always_completes_witness :
  exists text m,
    responseOf Samples.oddCounterResult = Ok text /\
    modelOf Samples.oddCounterResult "o1" = Ok m /\
    fetchV1 (fun _ => "") Samples.oddCounterBridge "o1" Samples.plainRequest =
    Ok (mkCompletionV1 [mkChoiceV1 (mkChatMessage text "assistant") "stop"] m
                       (mkUsage 0 0 0)).
Proof.
  exact (v1_success_always_completes (fun _ => "") Samples.oddCounterBridge "o1"
           Samples.plainRequest
           (JObj [("messages", JArr [JObj [("content", JStr "2+2?")]]);
                  ("model", JObj [("id", JStr "o1"); ("vendor", JStr "copilot");
                                  ("family", JStr "o1")]);
                  ("options", JObj [])])
           Samples.oddCounterResult (JBool true)
           (mkHttpReply 200 "OK" (Some Samples.oddCounterResult))
           eq_refl eq_refl eq_refl eq_refl eq_refl eq_refl).
Defined.

End FirstVersion.

(* ================================================================== *)
(** * The provider's health check and model list                       *)
(* ================================================================== *)

Section ModelList.
Import Js Adapter Provider.
Local Open Scope exc_scope.

Variable NumberToString : float -> string.

(** X14: the extension counts as healthy exactly when [/health] answers
    2xx with a JSON body from which a [timestamp] can be read and
    printed; an answer outside 2xx and a failure to connect are told
    apart by the message. *)
Theorem checkHealth_healthy_iff :
  forall health : Exc HttpReply,
    (isHealthy (checkHealth NumberToString health) = true <->
     exists response data timestamp text,
       health = Ok response /\ ok response = true /\
       http_json response = Some data /\
       get data "timestamp" = Ok timestamp /\
       ToString NumberToString timestamp = Ok text) /\
    (forall response,
        health = Ok response -> ok response = false ->
        health_message (checkHealth NumberToString health) =
        "❌ VS Code LLM Extension server responded with error") /\
    (forall e,
        health = Throw e ->
        health_message (checkHealth NumberToString health) =
        "❌ VS Code LLM Extension is not running on localhost:3000").
Proof.
  intros health. unfold checkHealth, jsonOf.
  destruct health as [response|e]; cbn [bind].
  - destruct (ok response) eqn:Hok.
    + destruct (http_json response) as [data|] eqn:Hj; cbn [bind].
      * destruct (get data "timestamp") as [timestamp|e] eqn:Ht; cbn [bind].
        -- destruct (ToString NumberToString timestamp) as [text|e] eqn:Hs; cbn [bind].
           ++ split; [split; [intros _; now exists response, data, timestamp, text|
                              reflexivity]|].
              split; [intros r [= <-] Hno; congruence | discriminate 1].
           ++ split; [split; [discriminate 1|]|].
              ** intros (r & d & t & x & [= <-] & _ & Hd & Hg & Hx).
                 rewrite Hj in Hd. injection Hd as <-. congruence.
              ** split; [intros r [= <-] Hno; congruence | discriminate 1].
        -- split; [split; [discriminate 1|]|].
           ++ intros (r & d & t & x & [= <-] & _ & Hd & Hg & Hx).
              rewrite Hj in Hd. injection Hd as <-. congruence.
           ++ split; [intros r [= <-] Hno; congruence | discriminate 1].
      * split; [split; [discriminate 1|]|].
        -- intros (r & d & t & x & [= <-] & _ & Hd & _). congruence.
        -- split; [intros r [= <-] Hno; congruence | discriminate 1].
    + split; [split; [discriminate 1|]|].
      * intros (r & d & t & x & [= <-] & Ho & _). congruence.
      * split; [reflexivity | discriminate 1].
  - split; [split; [discriminate 1|]|].
    + intros (r & d & t & x & Hh & _). discriminate Hh.
    + split; [discriminate 1 | reflexivity].
Qed.

(** X15: the model list is empty, and nothing is raised, whenever the
    health check fails, the request for the models fails or is answered
    outside 2xx or without JSON, or the answer has no truthy [success] or
    no truthy [models]. *)
Theorem getDynamicModels_empty_on_failure :
  forall server : Server,
    (isHealthy (checkHealth NumberToString (health_reply server)) = false ->
     getDynamicModels NumberToString server = []) /\
    (forall e, models_reply server = Throw e ->
               getDynamicModels NumberToString server = []) /\
    (forall response,
        models_reply server = Ok response ->
        ok response = false \/ http_json response = None ->
        getDynamicModels NumberToString server = []) /\
    (forall response data,
        models_reply server = Ok response ->
        http_json response = Some data ->
        truthy (Extension.field data "success") = false \/
        truthy (Extension.field data "models") = false ->
        getDynamicModels NumberToString server = []).
Proof.
  intros server. unfold getDynamicModels, getDynamicModelsTry, jsonOf.
  destruct (isHealthy (checkHealth NumberToString (health_reply server)));
    cbn [negb]; repeat split; try reflexivity; try discriminate.
  - intros e ->. reflexivity.
  - intros response -> [Hok|Hj]; cbn [bind].
    + now rewrite Hok.
    + destruct (ok response); [|reflexivity]. now rewrite Hj.
  - intros response data -> Hj Hfalsy. cbn [bind].
    destruct (ok response); [|reflexivity]. cbn [negb]. rewrite Hj. cbn [bind].
    unfold Extension.field in Hfalsy.
    destruct (get data "success") as [success|e]; [|reflexivity]. cbn [bind].
    destruct (truthy success) eqn:Hs; [|reflexivity].
    destruct Hfalsy as [Hf|Hf]; [discriminate Hf|].
    destruct (get data "models") as [models|e]; [|reflexivity]. cbn [bind].
    now rewrite Hf.
Qed.

Lemma toModelInfo_facts (v : value) (info : ModelInfo) :
  toModelInfo NumberToString v = Ok info ->
  name info = Extension.field v "id" /\
  provider info = "VS LLM" /\ truthy (maxTokenAllowed info) = true.
Proof.
  unfold toModelInfo, Extension.field.
  destruct (get v "id") as [id|e]; [|discriminate 1]. cbn [bind].
  destruct (get v "name") as [n|e]; [|discriminate 1]. cbn [bind].
  destruct (ToString NumberToString n) as [nt|e]; [|discriminate 1]. cbn [bind].
  destruct (get v "vendor") as [vd|e]; [|discriminate 1]. cbn [bind].
  destruct (ToString NumberToString vd) as [vt|e]; [|discriminate 1]. cbn [bind].
  destruct (get v "maxInputTokens") as [m|e]; [|discriminate 1]. cbn [bind].
  intros [= <-]. cbn. repeat split.
  unfold or_else. destruct (truthy m) eqn:Hm; [exact Hm | reflexivity].
Qed.

Lemma mapM_toModelInfo_facts (items : list value) (infos : list ModelInfo) :
  mapM (toModelInfo NumberToString) items = Ok infos ->
  map name infos = map (fun v => Extension.field v "id") items /\
  Forall (fun info => provider info = "VS LLM" /\
                      truthy (maxTokenAllowed info) = true) infos.
Proof.
  revert infos. induction items as [|v items IH]; simpl; intros infos H.
  - injection H as <-. split; [reflexivity | constructor].
  - destruct (toModelInfo NumberToString v) as [info|e] eqn:Hv; [|discriminate H].
    cbn [bind] in H.
    destruct (mapM (toModelInfo NumberToString) items) as [rest|e]; [|discriminate H].
    injection H as <-.
    destruct (toModelInfo_facts _ _ Hv) as (Hn & Hp & Hm).
    destruct (IH rest eq_refl) as [Hnames Hall].
    split; [simpl; now rewrite Hn, Hnames | now constructor].
Qed.

(** X16: from a healthy extension whose answer lists its models in an
    array, the provider offers all of them or none: either one entry per
    model, in order, named by the model's [id], with the provider
    "VS LLM" and a truthy token limit (8000 where the model gives none),
    or, when a single entry cannot be converted, the empty list. *)
Theorem getDynamicModels_all_or_nothing :
  forall (server : Server) (response : HttpReply) (data : value) (items : list value),
    isHealthy (checkHealth NumberToString (health_reply server)) = true ->
    models_reply server = Ok response ->
    ok response = true ->
    http_json response = Some data ->
    truthy (Extension.field data "success") = true ->
    Extension.field data "models" = JArr items ->
    (forall infos,
        mapM (toModelInfo NumberToString) items = Ok infos ->
        getDynamicModels NumberToString server = infos /\
        map name infos = map (fun v => Extension.field v "id") items /\
        Forall (fun info => provider info = "VS LLM" /\
                            truthy (maxTokenAllowed info) = true) infos) /\
    (forall e,
        mapM (toModelInfo NumberToString) items = Throw e ->
        getDynamicModels NumberToString server = []).
Proof.
  intros server response data items Hh Hr Hok Hj Hs Hm.
  assert (Hrun : getDynamicModels NumberToString server =
                 match mapM (toModelInfo NumberToString) items with
                 | Ok infos => infos
                 | Throw _ => []
                 end).
  { unfold getDynamicModels, getDynamicModelsTry, jsonOf.
    rewrite Hh, Hr. cbn [negb bind]. rewrite Hok, Hj. cbn [negb bind].
    unfold Extension.field in Hs, Hm.
    destruct (get data "success") as [success|e]; [|discriminate Hs]. cbn [bind].
    rewrite Hs.
    destruct (get data "models") as [models|e]; [|discriminate Hm]. cbn [bind].
    subst models. reflexivity. }
  split.
  - intros infos Hi. rewrite Hrun, Hi. split; [reflexivity|].
    now apply mapM_toModelInfo_facts.
  - intros e He. now rewrite Hrun, He.
Qed.

(** The entries of [/api/models], read back by the provider. *)
Lemma toModelInfo_modelEntry (m : Extension.ChatModel) :
  toModelInfo NumberToString (Extension.modelEntry m) =
  Ok (mkModelInfo (JStr (Bridge.model_id (Extension.details m)))
        (Bridge.model_name (Extension.details m) ++ " (" ++
         Bridge.model_vendor (Extension.details m) ++ ")")
        "VS LLM"
        (or_else (Extension.jsonNumber (Extension.maxInputTokens m)) (JNum 8000%float))).
Proof.
  unfold toModelInfo, Extension.modelEntry, json_object.
  destruct (Extension.jsonNumber (Extension.maxInputTokens m)); reflexivity.
Qed.

Lemma mapM_modelEntries (models : list Extension.ChatModel) :
  mapM (toModelInfo NumberToString) (map Extension.modelEntry models) =
  Ok (map (fun m =>
             mkModelInfo (JStr (Bridge.model_id (Extension.details m)))
               (Bridge.model_name (Extension.details m) ++ " (" ++
                Bridge.model_vendor (Extension.details m) ++ ")")
               "VS LLM"
               (or_else (Extension.jsonNumber (Extension.maxInputTokens m))
                        (JNum 8000%float)))
          models).
Proof.
  induction models as [|m models IH]; [reflexivity|].
  cbn [map mapM]. rewrite toModelInfo_modelEntry. cbn [bind].
  rewrite IH. reflexivity.
Qed.

(** X17: in front of the extension's own [/health] and [/api/models],
    the provider offers exactly the host's models, in order: the name is
    the model's id, the label its name followed by the vendor in
    brackets, the token limit the model's [maxInputTokens] or 8000 when it
    has none; and no model at all when the host's listing fails. *)
Theorem getDynamicModels_through_extension :
  forall (timestamp : string) (listing : Exc (list Extension.ChatModel)),
    getDynamicModels NumberToString (extensionServer timestamp listing) =
    match listing with
    | Ok models =>
        map (fun m =>
               mkModelInfo (JStr (Bridge.model_id (Extension.details m)))
                 (Bridge.model_name (Extension.details m) ++ " (" ++
                  Bridge.model_vendor (Extension.details m) ++ ")")
                 "VS LLM"
                 (or_else (Extension.jsonNumber (Extension.maxInputTokens m))
                          (JNum 8000%float)))
            models
    | Throw _ => []
    end.
Proof.
  intros timestamp listing.
  assert (Hhealth : isHealthy (checkHealth NumberToString
                                 (health_reply (extensionServer timestamp listing))) = true)
    by reflexivity.
  unfold getDynamicModels, getDynamicModelsTry. rewrite Hhealth. cbn [negb].
  destruct listing as [models|e].
  - change (models_reply (extensionServer timestamp (Ok models)))
      with (Ok (mkHttpReply 200 "OK"
                  (Some (JObj [("success", JBool true);
                               ("models", JArr (map Extension.modelEntry models));
                               ("count", JNum (Extension.number_of_nat
                                                 (List.length
                                                    (map Extension.modelEntry models))))])))).
    cbn [bind ok http_status http_json jsonOf negb andb Z.leb Z.compare Pos.compare
         Pos.compare_cont get own String.eqb Ascii.eqb Bool.eqb truthy].
    rewrite mapM_modelEntries. reflexivity.
  - destruct e as [[msg|]]; reflexivity.
Qed.

End ModelList.

Section ModelListExamples.
Import Js Adapter Provider.

Lemma getDynamicModels_all_or_nothing_witness :
  (forall infos,
      mapM (toModelInfo (fun _ => ""))
           (map Extension.modelEntry [MoreSamples.gpt4oListed; MoreSamples.claudeListed])
      = Ok infos ->
      getDynamicModels (fun _ => "")
        (extensionServer "2025-01-01T00:00:00.000Z" MoreSamples.listing) = infos /\
      map name infos =
      map (fun v => Extension.field v "id")
          (map Extension.modelEntry [MoreSamples.gpt4oListed; MoreSamples.claudeListed]) /\
      Forall (fun info => provider info = "VS LLM" /\
                          truthy (maxTokenAllowed info) = true) infos) /\
  (forall e,
      mapM (toModelInfo (fun _ => ""))
           (map Extension.modelEntry [MoreSamples.gpt4oListed; MoreSamples.claudeListed])
      = Throw e ->
      getDynamicModels (fun _ => "")
        (extensionServer "2025-01-01T00:00:00.000Z" MoreSamples.listing) = []).
Proof.
  exact (getDynamicModels_all_or_nothing (fun _ => "")
           (extensionServer "2025-01-01T00:00:00.000Z" MoreSamples.listing)
           _ _ _ eq_refl eq_refl eq_refl eq_refl eq_refl eq_refl).
Defined.

End ModelListExamples.

(* ================================================================== *)
(** * The chat view                                                    *)
(* ================================================================== *)

Section ChatView.
Import Js Bridge Extension ChatRuns.
Local Open Scope exc_scope.

(** The selector of a truthy selection is built without an exception. *)
Lemma selector_of_truthy (selected : value) :
  truthy selected = true ->
  (i <- get selected "id" ;;
   v <- get selected "vendor" ;;
   f <- get selected "family" ;;
   Ok (mkSelector i v f)) = Ok (selectorFrom selected).
Proof.
  unfold selectorFrom, field.
  destruct selected; try discriminate 1; reflexivity.
Qed.

(** [sendTry], step by step. *)
Lemma sendTry_steps (host : Host) (selected text : value) :
  truthy selected = true ->
  sendTry host selected text =
  let selector := Some (selectorFrom selected) in
  match selectChatModels host selector with
  | Throw e => ([CallSelectChatModels selector], Throw e)
  | Ok [] => ([CallSelectChatModels selector],
              Ok (PostError "Selected model is not available."))
  | Ok (model :: _) =>
      let trace := [CallSelectChatModels selector;
                    CallSendRequest model [text] (JObj [])] in
      match sendRequest host model [text] (JObj []) with
      | Throw e => (trace, Throw e)
      | Ok response =>
          match drain response with
          | Throw e => (trace, Throw e)
          | Ok fullResponse =>
              (trace,
               Ok (PostResponse fullResponse
                     (JObj [("name", JStr (model_name model));
                            ("vendor", JStr (model_vendor model));
                            ("family", JStr (model_family model))])))
          end
      end
  end.
Proof.
  intros Ht. unfold sendTry. rewrite (selector_of_truthy _ Ht).
  unfold callSelectChatModels, callSendRequest. cbn [lift hbind].
  cbv zeta.
  destruct (selectChatModels host (Some (selectorFrom selected))) as [[|model rest]|e];
    cbn; try reflexivity.
  destruct (sendRequest host model [text] (JObj [])) as [response|e]; cbn; [|reflexivity].
  destruct (drain response); reflexivity.
Qed.

(** X18: what [_handleSendMessage] posts: nothing without a view; the
    error "No model selected" alone, and no host call, without a
    selection; otherwise "thinking" followed by exactly one message, a
    response or an error, so the input the webview locks on "thinking"
    is always released. *)
Theorem send_message_protocol :
  forall (host : Host) (s : Session) (text : value),
    let posted := fst (handleSendMessage host s text) in
    let trace := snd (handleSendMessage host s text) in
    (view s = false -> posted = [] /\ trace = []) /\
    (view s = true -> truthy (selectedModel s) = false ->
     posted = [PostError "No model selected. Please select a model first."] /\
     trace = []) /\
    (view s = true -> truthy (selectedModel s) = true ->
     exists final, posted = [PostThinking; final] /\ releasesInput final = true).
Proof.
  intros host s text posted trace. subst posted trace.
  unfold handleSendMessage.
  destruct (view s); cbn [negb]; repeat split; try discriminate.
  - destruct (truthy (selectedModel s)); [discriminate | reflexivity].
  - destruct (truthy (selectedModel s)); [discriminate | reflexivity].
  - intros _ Ht. rewrite Ht. cbn [negb]. rewrite (sendTry_steps host _ text Ht).
    cbv zeta.
    destruct (selectChatModels host _) as [[|model rest]|e];
      try (eexists; split; reflexivity).
    destruct (sendRequest host model [text] (JObj [])) as [response|e];
      try (eexists; split; reflexivity).
    destruct (drain response); eexists; split; reflexivity.
Qed.

(** X19: a message is sent to the model the host lists first for the id,
    vendor and family of the current selection: when it lists none, the
    error "Selected model is not available." is posted and nothing is
    invoked; when the model answers, the response posted is the joined
    text of its stream, with the name, vendor and family of that model. *)
Theorem send_message_uses_selection :
  forall (host : Host) (s : Session) (text : value),
    view s = true ->
    truthy (selectedModel s) = true ->
    let selector := Some (selectorFrom (selectedModel s)) in
    (selectChatModels host selector = Ok [] ->
     handleSendMessage host s text =
     ([PostThinking; PostError "Selected model is not available."],
      [CallSelectChatModels selector])) /\
    (forall model rest response,
        selectChatModels host selector = Ok (model :: rest) ->
        sendRequest host model [text] (JObj []) = Ok response ->
        stream_failure response = None ->
        handleSendMessage host s text =
        ([PostThinking;
          PostResponse (joinTexts (texts (stream response)))
            (JObj [("name", JStr (model_name model));
                   ("vendor", JStr (model_vendor model));
                   ("family", JStr (model_family model))])],
         [CallSelectChatModels selector; CallSendRequest model [text] (JObj [])])).
Proof.
  intros host s text Hv Ht selector.
  unfold handleSendMessage. rewrite Hv, Ht. cbn [negb].
  rewrite (sendTry_steps host _ text Ht). cbv zeta. fold selector.
  split.
  - intros ->. reflexivity.
  - intros model rest response -> -> Hok.
    unfold drain. rewrite Hok, collect_joinTexts. reflexivity.
Qed.

Lemma send_message_uses_selection_witness :
  handleSendMessage Samples.answeringHost MoreSamples.chosen (JStr "2+2?") =
  ([PostThinking;
    PostResponse "4" (JObj [("name", JStr "GPT-4o"); ("vendor", JStr "copilot");
                            ("family", JStr "gpt")])],
   [CallSelectChatModels
      (Some (mkSelector (JStr "gpt-4o") (JStr "copilot") (JStr "gpt")));
    CallSendRequest Samples.gpt4o [JStr "2+2?"] (JObj [])]).
Proof.
  exact (proj2 (send_message_uses_selection Samples.answeringHost MoreSamples.chosen
                  (JStr "2+2?") eq_refl eq_refl)
               Samples.gpt4o [Samples.claude]
               (mkChatResponse [LanguageModelTextPart "4"] None)
               eq_refl eq_refl eq_refl).
Defined.

(** X20: loading the models replaces the list of available models and
    never replaces a selection: the first model is selected only when
    the view is open and nothing is selected yet; without a view nothing
    is selected and nothing is posted; a failed listing leaves the
    session as it was. *)
Theorem load_models_keeps_selection :
  forall (listing : Exc (list ChatModel)) (s : Session),
    let s' := fst (loadModels listing s) in
    (truthy (selectedModel s) = true -> selectedModel s' = selectedModel s) /\
    (view s = false ->
     selectedModel s' = selectedModel s /\ snd (loadModels listing s) = []) /\
    (forall m models,
        listing = Ok (m :: models) ->
        view s = true -> truthy (selectedModel s) = false ->
        selectedModel s' = availableEntry m /\ truthy (selectedModel s') = true) /\
    (forall models,
        listing = Ok models -> availableModels s' = map availableEntry models) /\
    (forall e, listing = Throw e -> s' = s).
Proof.
  intros listing s s'. subst s'. unfold loadModels.
  split; [|split; [|split; [|split]]].
  - intros Ht. destruct listing as [[|m models]|e]; cbn; try reflexivity.
    rewrite Ht, andb_false_r. reflexivity.
  - intros Hv. destruct listing as [[|m models]|e]; cbn; rewrite Hv; split; reflexivity.
  - intros m models -> Hv Ht. cbn. rewrite Hv, Ht. split; reflexivity.
  - intros models ->. destruct models; reflexivity.
  - intros e ->. reflexivity.
Qed.

(** X21: a model chosen in the webview becomes the selection as it is
    sent, without a look at the available models, and is echoed back;
    the next message is then sent with its id, vendor and family. *)
Theorem select_then_send :
  forall (host : Host) (listing : Exc (list ChatModel)) (s : Session)
         (msg chosenModel : value),
    get msg "command" = Ok (JStr "selectModel") ->
    get msg "model" = Ok chosenModel ->
    let s' := mkSession (view s) chosenModel (availableModels s) in
    onDidReceiveMessage host listing s msg = Ok (s', [PostModelSelected chosenModel]) /\
    (view s = true -> truthy chosenModel = true ->
     forall text, exists rest,
       snd (handleSendMessage host s' text) =
       CallSelectChatModels (Some (selectorFrom chosenModel)) :: rest).
Proof.
  intros host listing s msg chosenModel Hc Hm s'. split.
  - unfold onDidReceiveMessage. rewrite Hc. cbn. rewrite Hm. reflexivity.
  - intros Hv Ht text. unfold handleSendMessage. subst s'. cbn [view selectedModel].
    rewrite Hv, Ht. cbn [negb]. rewrite (sendTry_steps host _ text Ht). cbv zeta.
    destruct (selectChatModels host _) as [[|model rest]|e]; try (now eexists).
    destruct (sendRequest host model [text] (JObj [])) as [response|e];
      [destruct (drain response)|]; now eexists.
Qed.

Lemma select_then_send_witness :
  onDidReceiveMessage Samples.emptyHost MoreSamples.listing MoreSamples.fresh
    (JObj [("command", JStr "selectModel"); ("model", JStr "anything")]) =
  Ok (mkSession true (JStr "anything") [], [PostModelSelected (JStr "anything")]).
Proof.
  exact (proj1 (select_then_send Samples.emptyHost MoreSamples.listing MoreSamples.fresh
                  (JObj [("command", JStr "selectModel"); ("model", JStr "anything")])
                  (JStr "anything") eq_refl eq_refl)).
Defined.

End ChatView.

(* ================================================================== *)
(** * More on the server lifecycle                                     *)
(* ================================================================== *)

Section LifecycleMore.
Import Js Bridge Extension.
Local Open Scope Z_scope.

(** X22: [serverPort] only grows, by one per start at most, and it grows
    exactly when a start from a stopped server hits EADDRINUSE on its
    first attempt, whether or not the retry comes up; stopping and
    deactivating never touch it. *)
Theorem server_port_only_grows :
  forall (net : Network) (st : State),
    let st' := fst (startServer net st) in
    serverPort st <= serverPort st' <= serverPort st + 1 /\
    (serverPort st' = serverPort st + 1 <->
     server st = None /\ exists msg, net (serverPort st) = ErrorEvent "EADDRINUSE" msg) /\
    serverPort (fst (stopServerSettled st)) = serverPort st /\
    serverPort (fst (deactivate st)) = serverPort st.
Proof.
  intros net st st'. subst st'.
  assert (Hstop : serverPort (fst (stopServerSettled st)) = serverPort st).
  { unfold stopServerSettled, stopServer. destruct (server st); reflexivity. }
  assert (Hde : serverPort (fst (deactivate st)) = serverPort st).
  { unfold deactivate. destruct (server st); reflexivity. }
  unfold startServer.
  destruct (server st) as [p|] eqn:Hs.
  - cbn [fst]. repeat split; try lia; try assumption.
    intros [Hnone _]. discriminate Hnone.
  - destruct (net (serverPort st)) as [|code msg|msg] eqn:Hn.
    + cbn. repeat split; try lia; try assumption.
      intros [_ [m Hm]]. discriminate Hm.
    + unfold onError. cbn [serverPort serverRunning server].
      destruct (String.eqb code "EADDRINUSE") eqn:Hc.
      * apply String.eqb_eq in Hc. subst code.
        destruct (net (serverPort st + 1)); cbn;
          repeat split; try lia; try assumption; now exists msg.
      * cbn. repeat split; try lia; try assumption.
        intros [_ [m Hm]]. injection Hm as Hcode _. subst code. discriminate Hc.
    + cbn. repeat split; try lia; try assumption.
      intros [_ [m Hm]]. discriminate Hm.
Qed.

(** X23: the port a retry moved to is kept: after a start that found P
    taken and came up on P+1, and a stop, the next start goes to P+1
    first and does not try P again. *)
Theorem restart_keeps_moved_port :
  forall (net net' : Network) (st : State) (msg : string),
    server st = None ->
    net (serverPort st) = ErrorEvent "EADDRINUSE" msg ->
    net (serverPort st + 1) = Listening ->
    net' (serverPort st + 1) = Listening ->
    let st1 := fst (startServer net st) in
    let st2 := fst (stopServerSettled st1) in
    let st3 := fst (startServer net' st2) in
    serverRunning st1 = true /\
    server st2 = None /\ serverRunning st2 = false /\
    listenAttempts (snd (startServer net' st2)) = [serverPort st + 1] /\
    serverRunning st3 = true /\ server st3 = Some (serverPort st + 1).
Proof.
  intros net net' st msg Hs Hn Hn1 Hn1' st1 st2 st3.
  assert (E1 : st1 = mkState (Some (serverPort st + 1)) (serverPort st + 1) true).
  { subst st1. unfold startServer. rewrite Hs, Hn.
    unfold onError. cbn [String.eqb Ascii.eqb Bool.eqb serverPort serverRunning].
    rewrite Hn1. reflexivity. }
  assert (E2 : st2 = mkState None (serverPort st + 1) false).
  { subst st2. rewrite E1. reflexivity. }
  assert (E3 : startServer net' st2 =
               (mkState (Some (serverPort st + 1)) (serverPort st + 1) true,
                Listen (serverPort st + 1)
                  :: snd (onListening (mkState (Some (serverPort st + 1))
                                               (serverPort st + 1) false)))).
  { rewrite E2. unfold startServer. cbn [server serverPort serverRunning].
    rewrite Hn1'. reflexivity. }
  subst st3. rewrite E3, E1, E2. repeat split.
Qed.

Lemma restart_keeps_moved_port_witness :
  serverRunning (fst (startServer Samples.port3000Busy Samples.stopped)) = true /\
  server (fst (stopServerSettled (fst (startServer Samples.port3000Busy Samples.stopped))))
  = None /\
  serverRunning
    (fst (stopServerSettled (fst (startServer Samples.port3000Busy Samples.stopped))))
  = false /\
  listenAttempts
    (snd (startServer MoreSamples.allFree
            (fst (stopServerSettled
                    (fst (startServer Samples.port3000Busy Samples.stopped))))))
  = [3000 + 1] /\
  serverRunning
    (fst (startServer MoreSamples.allFree
            (fst (stopServerSettled
                    (fst (startServer Samples.port3000Busy Samples.stopped))))))
  = true /\
  server
    (fst (startServer MoreSamples.allFree
            (fst (stopServerSettled
                    (fst (startServer Samples.port3000Busy Samples.stopped))))))
  = Some (3000 + 1).
Proof.
  exact (restart_keeps_moved_port Samples.port3000Busy MoreSamples.allFree Samples.stopped
           "listen EADDRINUSE" eq_refl eq_refl eq_refl eq_refl).
Defined.

(** A start with no server object calls [listen] at least once. *)
Lemma start_from_stopped_listens (net : Network) (st : State) :
  server st = None -> listenAttempts (snd (startServer net st)) <> [].
Proof.
  intros Hs. unfold startServer. rewrite Hs.
  destruct (net (serverPort st)) as [|c m|m]; [discriminate | | discriminate].
  unfold onError. cbn [serverPort serverRunning server].
  destruct (String.eqb c "EADDRINUSE"); [|discriminate].
  destruct (net (serverPort st + 1)); discriminate.
Qed.

(** X24: when the retry fails with an error event too, the server object
    of the retry stays in [server] although nothing is listening: every
    further start only warns "Server is already running!" and tries no
    port, until a stop has cleared it. *)
Theorem failed_retry_blocks_start :
  forall (net : Network) (st : State) (msg code' msg' : string),
    server st = None ->
    net (serverPort st) = ErrorEvent "EADDRINUSE" msg ->
    net (serverPort st + 1) = ErrorEvent code' msg' ->
    let st1 := fst (startServer net st) in
    serverRunning st1 = serverRunning st /\
    (forall net' : Network,
        startServer net' st1 = (st1, [ShowWarningMessage "Server is already running!"])) /\
    (forall net' : Network,
        listenAttempts (snd (startServer net' (fst (stopServerSettled st1)))) <> []).
Proof.
  intros net st msg code' msg' Hs Hn Hn1 st1.
  assert (E1 : st1 = mkState (Some (serverPort st + 1)) (serverPort st + 1)
                             (serverRunning st)).
  { subst st1. unfold startServer. rewrite Hs, Hn.
    unfold onError. cbn [String.eqb Ascii.eqb Bool.eqb serverPort serverRunning].
    rewrite Hn1. reflexivity. }
  rewrite E1. split; [reflexivity|]. split; [reflexivity|].
  intros net'. apply start_from_stopped_listens. reflexivity.
Qed.

Lemma failed_retry_blocks_start_witness :
  serverRunning (fst (startServer MoreSamples.bothBusy Samples.stopped)) =
  serverRunning Samples.stopped /\
  (forall net' : Network,
      startServer net' (fst (startServer MoreSamples.bothBusy Samples.stopped)) =
      (fst (startServer MoreSamples.bothBusy Samples.stopped),
       [ShowWarningMessage "Server is already running!"])) /\
  (forall net' : Network,
      listenAttempts
        (snd (startServer net'
                (fst (stopServerSettled
                        (fst (startServer MoreSamples.bothBusy Samples.stopped))))))
      <> []).
Proof.
  exact (failed_retry_blocks_start MoreSamples.bothBusy Samples.stopped
           "listen EADDRINUSE" "EADDRINUSE" "listen EADDRINUSE" eq_refl eq_refl eq_refl).
Defined.

(** X25: [deactivate] clears [server] at once, raising nothing and
    showing nothing: a stop after it only warns, a second [deactivate]
    does nothing, and a start after it tries the port again; the tree
    view's flag is left as it was. *)
Theorem deactivate_clears_server :
  forall st : State,
    let st' := fst (deactivate st) in
    server st' = None /\
    serverRunning st' = serverRunning st /\
    existsb raises (snd (deactivate st)) = false /\
    deactivate st' = (st', []) /\
    stopServer st' = (st', [ShowWarningMessage "Server is not running!"]) /\
    (forall net : Network,
        listenAttempts (snd (startServer net st')) <> []).
Proof.
  intros st st'. subst st'. unfold deactivate.
  destruct (server st) as [p|] eqn:Hs; cbn [fst snd].
  - split; [reflexivity|]. split; [reflexivity|]. split; [reflexivity|].
    split; [reflexivity|]. split; [reflexivity|].
    intros net. now apply start_from_stopped_listens.
  - unfold stopServer. rewrite Hs.
    split; [reflexivity|]. split; [reflexivity|]. split; [reflexivity|].
    split; [reflexivity|]. split; [reflexivity|].
    intros net. now apply start_from_stopped_listens.
Qed.

End LifecycleMore.

(* ================================================================== *)
(** * The webview script and the chat view together                    *)
(* ================================================================== *)

Section Exchange.
Import Js Bridge Extension Webview.

Variable trim : string -> string.

(** Adding a message that is not a thinking indicator leaves no
    thinking indicator in the chat. *)
Lemma addMessage_clears_thinking (text type : string) (model : value) (st : Script) :
  String.eqb type "thinking" = false ->
  existsb isThinkingBubble (chat (addMessage text type model st)) = false.
Proof.
  intros Ht. unfold addMessage. rewrite Ht. cbn [negb chat].
  rewrite existsb_app. apply orb_false_iff. split.
  - induction (chat st) as [|b l IH]; [reflexivity|].
    cbn [filter]. destruct (isThinkingBubble b) eqn:Hb; cbn [negb]; [exact IH|].
    cbn [existsb]. now rewrite Hb, IH.
  - cbn [existsb]. unfold isThinkingBubble. cbn [kind]. now rewrite Ht.
Qed.

(** A message that releases the input leaves the script not thinking
    and without a thinking indicator. *)
Lemma onMessage_releases (st : Script) (msg : Posted) :
  releasesInput msg = true ->
  isThinking (onMessage st msg) = false /\
  existsb isThinkingBubble (chat (onMessage st msg)) = false /\
  inputValue (onMessage st msg) = inputValue st.
Proof.
  destruct msg; try discriminate 1; intros _; cbn [onMessage setThinking isThinking chat
                                                   inputValue];
    (split; [reflexivity|]); (split; [|reflexivity]);
    now apply addMessage_clears_thinking.
Qed.

(** The three shapes of what [_handleSendMessage] posts. *)
Lemma handleSendMessage_posted (host : Host) (s : Session) (text : value) :
  let posted := fst (handleSendMessage host s text) in
  posted = [] \/
  (exists final, posted = [final] /\ releasesInput final = true) \/
  (exists final, posted = [PostThinking; final] /\ releasesInput final = true).
Proof.
  cbv zeta. unfold handleSendMessage.
  destruct (view s); cbn [negb]; [|now left].
  destruct (truthy (selectedModel s)) eqn:Ht; cbn [negb];
    [|right; left; eexists; split; reflexivity].
  right; right. rewrite (sendTry_steps host _ text Ht). cbv zeta.
  destruct (selectChatModels host _) as [[|model rest]|e];
    try (eexists; split; reflexivity).
  destruct (sendRequest host model [text] (JObj [])) as [response|e];
    try (eexists; split; reflexivity).
  destruct (drain response); eexists; split; reflexivity.
Qed.

(** X26: the script and the chat view together: while an answer is
    awaited the script sends nothing; otherwise, whatever the extension
    does with a message that was sent (answer, error, or nothing at
    all), once its messages are handled the script is not thinking, no
    thinking indicator is left in the chat and the input is empty, so the
    next message can be typed. *)
Theorem exchange_releases_input :
  forall (host : Host) (session : Session) (st : Script),
    (isThinking st = true -> sendMessage trim st = (st, [])) /\
    (isThinking st = false ->
     let st1 := fst (sendMessage trim st) in
     let asked := snd (sendMessage trim st) in
     (asked = [] /\ isThinking st1 = false) \/
     (asked = [AskSendMessage (trim (inputValue st))] /\
      trim (inputValue st) <> "" /\
      truthy (selected st) = true /\
      let st2 := deliver st1 (fst (handleSendMessage host session
                                     (JStr (trim (inputValue st))))) in
      isThinking st2 = false /\
      existsb isThinkingBubble (chat st2) = false /\
      inputValue st2 = "")).
Proof.
  intros host session st. split.
  - intros Ht. unfold sendMessage. now rewrite Ht, orb_true_r.
  - intros Hidle. cbv zeta. unfold sendMessage. rewrite Hidle, orb_false_r.
    destruct (String.eqb (trim (inputValue st)) "") eqn:Hempty; [now left|].
    destruct (truthy (selected st)) eqn:Hsel; cbn [negb fst snd]; [|now left].
    right. split; [reflexivity|].
    split; [now apply String.eqb_neq|]. split; [reflexivity|].
    set (text := trim (inputValue st)).
    set (st1 := mkScript _ _ _ _ _).
    assert (H1 : isThinking st1 = false /\
                 existsb isThinkingBubble (chat st1) = false /\ inputValue st1 = "").
    { subst st1. cbn [isThinking chat inputValue]. split; [exact Hidle|].
      split; [|reflexivity]. now apply addMessage_clears_thinking. }
    destruct (handleSendMessage_posted host session (JStr text))
      as [-> | [(final & -> & Hf) | (final & -> & Hf)]].
    + exact H1.
    + cbn [deliver fold_left].
      destruct (onMessage_releases st1 final Hf) as (Ha & Hb & Hc).
      rewrite Hc. now destruct H1 as (_ & _ & ->).
    + cbn [deliver fold_left].
      destruct (onMessage_releases (onMessage st1 PostThinking) final Hf) as (Ha & Hb & Hc).
      rewrite Hc. cbn [onMessage setThinking addMessage inputValue].
      now destruct H1 as (_ & _ & ->).
Qed.

End Exchange.
